(** * Appointment slot allocation: grid, availability and admission

    A shallow embedding of the appointment back end:
    - [TimeSlots] embeds [utils/timeSlots.ts] (the slot grid generator with
      the lunch exclusion);
    - [Mongo] is the appointment collection the handlers talk to, as a list
      of documents in insertion order together with the calls received;
    - [Controller] embeds [controllers/AppointmentController.ts]
      ([getAvailableSlots], [getNextTimeSlot], [getAffectedTimeSlots],
      [createAppointment], [getAllAppointments], [cancelAppointment],
      [confirmAppointment]);
    - [Legacy] embeds the earlier availability and creation handlers kept
      under [src/controllers].

    Numbers that the source keeps in JavaScript doubles are integers (or
    exact halves) everywhere they occur, so minutes are in [Z] and the two
    fractional constants are in [Q].

    What the handlers take from the JavaScript runtime and from Mongoose
    beyond the cases computed here is a parameter of the handlers: how a
    date string is read, which identifier strings are valid and what they
    are cast to, what [getNextTimeSlot] returns on a string that is not a
    clock label, and what [toLowerCase] returns outside ASCII. *)

From Stdlib Require Import ZArith QArith Qround List String Ascii Bool Lia.
From Stdlib Require Import DecimalString Sorted Permutation.
Import ListNotations.
Open Scope Z_scope.

(** ** The JavaScript string helpers the source calls *)

Module JS.

(** [n.toString()] for an integer [n]. *)
Definition toString (n : Z) : string := NilZero.string_of_int (Z.to_int n).

(** [s.padStart(targetLength, pad)] for a one-character [pad]. *)
Definition padStart (targetLength : nat) (pad : ascii) (s : string) : string :=
  (string_of_list_ascii (repeat pad (targetLength - String.length s)) ++ s)%string.

(** [s.split(sep)] for a one-character separator: never empty. *)
Fixpoint split (sep : ascii) (s : string) : list string :=
  match s with
  | EmptyString => [EmptyString]
  | String c rest =>
      if Ascii.eqb c sep then EmptyString :: split sep rest
      else match split sep rest with
           | [] => [String c EmptyString]
           | piece :: pieces => String c piece :: pieces
           end
  end.

(** [Number(field)] for a field of one or two decimal digits, the way an
    hour or a minute is spelled in a time label: its value.  [None] says
    only that the string is not of that shape.  JavaScript reads many other
    spellings as numbers (signs, blanks, fractions, exponents, radix
    prefixes, longer digit strings); nothing here computes with those. *)
Definition clockField (field : string) : option Z :=
  if ((1 <=? String.length field) && (String.length field <=? 2))%nat
  then option_map Z.of_uint (NilEmpty.uint_of_string field)
  else None.

(** [!s] for a request field: absent or the empty string. *)
Definition falsy (field : option string) : bool :=
  match field with
  | None => true
  | Some s => String.eqb s EmptyString
  end.

(** [array.filter((x, index) => f x index)]. *)
Fixpoint filter_from {A} (f : A -> nat -> bool) (index : nat) (l : list A) : list A :=
  match l with
  | [] => []
  | x :: rest =>
      if f x index then x :: filter_from f (S index) rest
      else filter_from f (S index) rest
  end.

Definition filter_indexed {A} (f : A -> nat -> bool) (l : list A) : list A :=
  filter_from f 0%nat l.

(** A [Set<string>] keeps one copy of each member, in insertion order. *)
Definition Set_has (set : list string) (x : string) : bool :=
  existsb (String.eqb x) set.

Definition Set_add (set : list string) (x : string) : list string :=
  if Set_has set x then set else set ++ [x].

End JS.

(** ** utils/timeSlots.ts *)

Module TimeSlots.

Definition START_HOUR : Z := 6.
Definition END_HOUR_LIMIT : Q := 20.5.
Definition SLOT_DURATION_MINUTES : Z := 30.

(** [12.5 * 60] and [14 * 60]; both products are whole numbers of minutes. *)
Definition LUNCH_START_MINUTES : Z := Qfloor (12.5 * 60).
Definition LUNCH_END_MINUTES : Z := 14 * 60.

(** [Math.floor(WORKING_HOURS.END_HOUR_LIMIT * 60)] *)
Definition endMinutes : Z := Qfloor (END_HOUR_LIMIT * 60).

(** The label pushed for a minute offset: zero-padded hours and minutes. *)
Definition label (currentTimeMinutes : Z) : string :=
  let hours := JS.padStart 2 "0" (JS.toString (currentTimeMinutes / 60)) in
  let minutes := JS.padStart 2 "0" (JS.toString (currentTimeMinutes mod 60)) in
  (hours ++ ":" ++ minutes)%string.

(** The [while] loop of [generateAllTimeSlots], one iteration per unit of
    fuel; [None] when the fuel runs out before the loop condition fails. *)
Fixpoint slots_loop (fuel : nat) (currentTimeMinutes : Z) (slots : list string)
  : option (list string) :=
  match fuel with
  | O => None
  | S fuel' =>
      if currentTimeMinutes <? endMinutes then
        if (LUNCH_START_MINUTES <=? currentTimeMinutes)
           && (currentTimeMinutes <? LUNCH_END_MINUTES)
        then slots_loop fuel' LUNCH_END_MINUTES slots
        else slots_loop fuel' (currentTimeMinutes + SLOT_DURATION_MINUTES)
                        (slots ++ [label currentTimeMinutes])
      else Some slots
  end.

(** Every iteration moves [currentTimeMinutes] forward by at least one
    minute, so the distance to [endMinutes] bounds the iterations. *)
Definition enough_fuel (currentTimeMinutes : Z) : nat :=
  S (Z.to_nat (endMinutes - currentTimeMinutes)).

Definition generateAllTimeSlots : list string :=
  match slots_loop (enough_fuel (START_HOUR * 60)) (START_HOUR * 60) [] with
  | Some slots => slots
  | None => []
  end.

End TimeSlots.

(** ** The appointment collection (models/Appointment.ts behind Mongoose)

    The collection is a list of documents in insertion order.  [calls]
    records every operation that reached the collection, oldest first, so
    that "before any store access" is a statement about the state.  The
    store is always reachable: the [catch] branches of the handlers are
    entered only when Mongoose refuses to cast an Invalid Date. *)

Module Mongo.

Definition ObjectId : Type := nat.

(** A JavaScript [Date]: its time value in milliseconds, [None] for an
    Invalid Date. *)
Definition Date : Type := option Z.

Inductive Status : Type := pending | confirmed | cancelled.

Definition Status_eqb (a b : Status) : bool :=
  match a, b with
  | pending, pending | confirmed, confirmed | cancelled, cancelled => true
  | _, _ => false
  end.

(** [IAppointment].  The [createdAt]/[updatedAt] timestamps that the schema
    adds are left out: no handler reads them and there is no clock here. *)
Record Appointment : Type := {
  _id : ObjectId;
  date : Date;
  timeSlot : string;
  clientName : string;
  clientEmail : string;
  duration : Z;
  status : Status
}.

(** The fields handed to [new Appointment({...})]. *)
Record Fields : Type := {
  new_date : Date;
  new_timeSlot : string;
  new_clientName : string;
  new_clientEmail : string;
  new_duration : Z;
  new_status : Status
}.

(** The filters the handlers build: an absent condition is [None]. *)
Record Query : Type := {
  where_date : option Date;
  where_timeSlot_in : option (list string);
  where_status_in : option (list Status)
}.

Inductive Call : Type :=
| Find (q : Query)
| Save (doc : Appointment)
| FindByIdAndUpdate (id : ObjectId) (newStatus : Status).

Record Store : Type := { docs : list Appointment; calls : list Call }.

Definition empty : Store := {| docs := []; calls := [] |}.

Definition called (c : Call) (s : Store) : Store :=
  {| docs := docs s; calls := calls s ++ [c] |}.

Definition Date_eqb (a b : Date) : bool :=
  match a, b with
  | Some x, Some y => x =? y
  | _, _ => false
  end.

Definition matches (q : Query) (a : Appointment) : bool :=
  match where_date q with
  | Some d => Date_eqb (date a) d
  | None => true
  end
  && match where_timeSlot_in q with
     | Some labels => existsb (String.eqb (timeSlot a)) labels
     | None => true
     end
  && match where_status_in q with
     | Some statuses => existsb (Status_eqb (status a)) statuses
     | None => true
     end.

(** [Appointment.find(q)]: the matching documents in insertion order.
    A filter on an Invalid Date fails to cast, which raises before the
    collection is reached: [None]. *)
Definition find (q : Query) (s : Store) : Store * option (list Appointment) :=
  match where_date q with
  | Some None => (s, None)
  | _ => (called (Find q) s, Some (filter (matches q) (docs s)))
  end.

(** A new document gets an identifier no document of the collection has. *)
Definition newObjectId (s : Store) : ObjectId :=
  S (fold_right Nat.max 0%nat (map _id (docs s))).

(** The [lowercase: true] setter of [clientEmail] is [toLowerCase()].  On
    a string of ASCII characters it lowers the letters A to Z and keeps the
    rest. *)
Definition lower (c : ascii) : ascii :=
  let n := nat_of_ascii c in
  if ((65 <=? n) && (n <=? 90))%nat then ascii_of_nat (n + 32) else c.

Fixpoint lowerAscii (s : string) : string :=
  match s with
  | EmptyString => EmptyString
  | String c rest => String (lower c) (lowerAscii rest)
  end.

Definition isAscii (c : ascii) : bool := (nat_of_ascii c <? 128)%nat.

Section Setters.

(** What [toLowerCase()] gives on a string that has a character outside
    ASCII: the case mapping of Unicode, a parameter here. *)
Variable toLowerCaseElsewhere : string -> string.

Definition toLowerCase (s : string) : string :=
  if forallb isAscii (list_ascii_of_string s) then lowerAscii s
  else toLowerCaseElsewhere s.

(** [new Appointment(fields)]: the document, with its identifier. *)
Definition construct (f : Fields) (s : Store) : Appointment :=
  {| _id := newObjectId s;
     date := new_date f;
     timeSlot := new_timeSlot f;
     clientName := new_clientName f;
     clientEmail := toLowerCase (new_clientEmail f);
     duration := new_duration f;
     status := new_status f |}.

End Setters.

(** [doc.save()]: the document is appended to the collection. *)
Definition save (doc : Appointment) (s : Store) : Store :=
  {| docs := docs s ++ [doc]; calls := calls s ++ [Save doc] |}.

(** [{ status: newStatus }] applied to a document.  The update also
    rewrites the document's [updatedAt], which the record leaves out. *)
Definition setStatus (newStatus : Status) (a : Appointment) : Appointment :=
  {| _id := _id a;
     date := date a;
     timeSlot := timeSlot a;
     clientName := clientName a;
     clientEmail := clientEmail a;
     duration := duration a;
     status := newStatus |}.

(** The first document with identifier [id] gets [newStatus]; the updated
    document is returned ([{ new: true }]), [None] when there is none. *)
Fixpoint update (id : ObjectId) (newStatus : Status) (l : list Appointment)
  : list Appointment * option Appointment :=
  match l with
  | [] => ([], None)
  | a :: rest =>
      if (_id a =? id)%nat then (setStatus newStatus a :: rest, Some (setStatus newStatus a))
      else let (rest', found) := update id newStatus rest in (a :: rest', found)
  end.

Definition findByIdAndUpdate (id : ObjectId) (newStatus : Status) (s : Store)
  : Store * option Appointment :=
  let (docs', found) := update id newStatus (docs s) in
  ({| docs := docs'; calls := calls s ++ [FindByIdAndUpdate id newStatus] |}, found).

(** [.sort({ date: 1, timeSlot: 1 })]: ascending by date, then by start
    label in the byte order of strings.  Documents that agree on both keys
    come out in insertion order here; the database promises no order among
    them. *)
Definition Date_leb (a b : Date) : bool :=
  match a, b with
  | None, _ => true
  | Some _, None => false
  | Some x, Some y => x <=? y
  end.

Definition before (a b : Appointment) : bool :=
  if Date_eqb (date a) (date b) then String.leb (timeSlot a) (timeSlot b)
  else Date_leb (date a) (date b).

Fixpoint insertSorted (a : Appointment) (l : list Appointment) : list Appointment :=
  match l with
  | [] => [a]
  | b :: rest => if before b a then b :: insertSorted a rest else a :: b :: rest
  end.

Definition sortByDateTimeSlot (l : list Appointment) : list Appointment :=
  fold_right insertSorted [] l.

End Mongo.

(** ** controllers/AppointmentController.ts *)

Module Controller.

Import Mongo.

(** What a handler sends back: the status code and the structured part of
    the JSON body (the human-readable [message] is left out). *)
Inductive Response : Type :=
| BadRequest                                       (* 400 *)
| NotFound                                         (* 404 *)
| Conflict (conflictSlot : string)                 (* 409 *)
| ServerError                                      (* 500 *)
| Slots (date : string) (slots : list string)      (* 200 *)
| Created (appointment : Appointment)              (* 201 *)
| Updated (appointment : Appointment).             (* 200 *)

Definition statusCode (r : Response) : Z :=
  match r with
  | BadRequest => 400
  | NotFound => 404
  | Conflict _ => 409
  | ServerError => 500
  | Slots _ _ => 200
  | Created _ => 201
  | Updated _ => 200
  end.

(** [req.body] of a creation request with the field types the handler is
    written for: [date], [timeSlot], [clientName] and [clientEmail] are
    strings and [duration] is an integer, each possibly absent ([None]).
    Bodies that carry another JSON type in one of these fields are not
    represented; among them a truthy [timeSlot] that is not a string, on
    which [startTime.split] fails before the first [try] when [duration] is
    60 and no answer is sent. *)
Record Body : Type := {
  req_date : option string;
  req_timeSlot : option string;
  req_clientName : option string;
  req_clientEmail : option string;
  req_duration : option Z
}.

(** The value of a field that passed the [!field] test. *)
Definition value (field : option string) : string :=
  match field with Some s => s | None => EmptyString end.

Section Handlers.

(** *** What the handlers take from the runtime *)

(** [getNextTimeSlot] outside clock labels: what
    [split(":").map(Number)] and the [Date] arithmetic give for a label
    whose first two fields are not an hour from 0 to 23 and a minute from 0
    to 59 in one or two digits.  [Number] reads many other spellings, and a
    [Date] moved out of the current day depends on the calendar and on the
    range of time values.  The answer is taken to be the same at every
    call on the same string. *)
Variable nextTimeSlotElsewhere : string -> string.

(** [toLowerCase()] on strings with characters outside ASCII. *)
Variable toLowerCaseElsewhere : string -> string.

(** [parseDate]: [new Date(dateString)] followed by
    [setUTCHours(0, 0, 0, 0)], that is the UTC midnight of the day the
    string denotes, or an Invalid Date.  How the runtime reads a date
    string is a parameter of the handlers. *)
Variable parseDate : string -> Date.

(** [mongoose.Types.ObjectId.isValid], and the identifier a valid string is
    cast to by [findByIdAndUpdate]. *)
Variable ObjectId_isValid : string -> bool.
Variable ObjectId_cast : string -> ObjectId.

(** [getNextTimeSlot].  With fewer than two fields, [minutes] is undefined
    and the [Date] is invalid: both parts read "NaN".  On a clock label the
    [Date] stays within the current local day or reaches into the first
    half hour of the next; it is kept as the minutes since local midnight,
    and the local time is taken to have no clock change there. *)
Definition getNextTimeSlot (currentTime : string) : string :=
  let SLOT_DURATION_MINUTES := 30 in
  match JS.split ":" currentTime with
  | hoursField :: minutesField :: _ =>
      match JS.clockField hoursField, JS.clockField minutesField with
      | Some hours, Some minutes =>
          if (hours <=? 23) && (minutes <=? 59) then
            (* date.setHours(hours, minutes, 0, 0) *)
            let date := hours * 60 + minutes in
            (* date.setMinutes(date.getMinutes() + SLOT_DURATION_MINUTES) *)
            let date := date + SLOT_DURATION_MINUTES in
            let nextHours := JS.padStart 2 "0" (JS.toString ((date / 60) mod 24)) in
            let nextMinutes := JS.padStart 2 "0" (JS.toString (date mod 60)) in
            (nextHours ++ ":" ++ nextMinutes)%string
          else nextTimeSlotElsewhere currentTime
      | _, _ => nextTimeSlotElsewhere currentTime
      end
  | _ => "NaN:NaN"%string
  end.

Definition getAffectedTimeSlots (startTime : string) (duration : Z) : list string :=
  let slots := [startTime] in
  if duration =? 60 then slots ++ [getNextTimeSlot startTime] else slots.

Definition active : list Status := [pending; confirmed].

(** The [forEach] that fills [bookedSlots] in [getAvailableSlots]. *)
Definition bookedSlots (bookedAppointments : list Appointment) : list string :=
  fold_left
    (fun set app =>
       let set := JS.Set_add set (timeSlot app) in
       if duration app =? 60
       then JS.Set_add set (getNextTimeSlot (timeSlot app))
       else set)
    bookedAppointments [].

(** The callback of [allSlots.filter]: rules A, B and C. *)
Definition rules (booked : list string) (array : list string)
           (slot : string) (index : nat) : bool :=
  if JS.Set_has booked slot then false
  else
    let nextSlotIndex := (index + 1)%nat in
    if (List.length array <=? nextSlotIndex)%nat then false
    else match nth_error array nextSlotIndex with
         | Some nextSlot => if JS.Set_has booked nextSlot then false else true
         | None => true  (* [has(undefined)] is false; excluded by rule B *)
         end.

(** What [getAllAppointments] sends back: 200 with the documents, or 500. *)
Inductive Listing : Type :=
| Appointments (appointments : list Appointment)   (* 200 *)
| ListingError.                                    (* 500 *)

(** [getAllAppointments]: the active appointments, sorted by date and start
    label.  The projection [.select(...)] keeps every field of the record
    here (the identifier is kept by default). *)
Definition getAllAppointments (s : Store) : Store * Listing :=
  match find {| where_date := None;
                where_timeSlot_in := None;
                where_status_in := Some active |} s with
  | (s1, None) => (s1, ListingError)
  | (s1, Some appointments) => (s1, Appointments (sortByDateTimeSlot appointments))
  end.

Definition getAvailableSlots (dateString : string) (s : Store) : Store * Response :=
  if String.eqb dateString EmptyString then (s, BadRequest)
  else
    let targetDate := parseDate dateString in
    let allSlots := TimeSlots.generateAllTimeSlots in
    match find {| where_date := Some targetDate;
                  where_timeSlot_in := None;
                  where_status_in := Some active |} s with
    | (s1, None) => (s1, ServerError)
    | (s1, Some bookedAppointments) =>
        let booked := bookedSlots bookedAppointments in
        let availableSlots := JS.filter_indexed (rules booked allSlots) allSlots in
        (s1, Slots dateString availableSlots)
    end.

(** Steps 1 and 2 of [createAppointment]: the field validation and the
    availability query, up to the point where the handler is about to
    build the document. *)
Definition createAppointment_check (body : Body) (s : Store)
  : Store * (Response + Fields) :=
  let duration := match req_duration body with Some d => d | None => 60 end in
  if JS.falsy (req_date body) || JS.falsy (req_timeSlot body)
     || JS.falsy (req_clientName body) || JS.falsy (req_clientEmail body)
     || (duration <? 30)
  then (s, inl BadRequest)
  else
    let date := value (req_date body) in
    let timeSlot := value (req_timeSlot body) in
    let targetDate := parseDate date in
    let slotsToVerify := getAffectedTimeSlots timeSlot duration in
    match find {| where_date := Some targetDate;
                  where_timeSlot_in := Some slotsToVerify;
                  where_status_in := Some active |} s with
    | (s1, None) => (s1, inl ServerError)
    | (s1, Some []) =>
        (s1, inr {| new_date := targetDate;
                    new_timeSlot := timeSlot;
                    new_clientName := value (req_clientName body);
                    new_clientEmail := value (req_clientEmail body);
                    new_duration := duration;
                    new_status := pending |})
    | (s1, Some (first :: _)) =>
        let conflictSlot := Mongo.timeSlot first in
        (s1, inl (Conflict conflictSlot))
    end.

(** Step 3: the single document of the booking is built and saved. *)
Definition createAppointment_save (fields : Fields) (s : Store) : Store * Response :=
  let newAppointment := construct toLowerCaseElsewhere fields s in
  (save newAppointment s, Created newAppointment).

Definition createAppointment (body : Body) (s : Store) : Store * Response :=
  match createAppointment_check body s with
  | (s1, inl response) => (s1, response)
  | (s1, inr fields) => createAppointment_save fields s1
  end.

Definition cancelAppointment (id : string) (s : Store) : Store * Response :=
  if negb (ObjectId_isValid id) then (s, BadRequest)
  else match findByIdAndUpdate (ObjectId_cast id) cancelled s with
       | (s1, None) => (s1, NotFound)
       | (s1, Some appointment) => (s1, Updated appointment)
       end.

Definition confirmAppointment (id : string) (s : Store) : Store * Response :=
  if negb (ObjectId_isValid id) then (s, BadRequest)
  else match findByIdAndUpdate (ObjectId_cast id) confirmed s with
       | (s1, None) => (s1, NotFound)
       | (s1, Some appointment) => (s1, Updated appointment)
       end.

(** *** Requests in flight

    A creation request awaits the collection twice: for the result of
    the availability query and for the insertion.  Between the two,
    other handlers run.  A task is a request at one of these points;
    a schedule names, step by step, the task that reaches the
    collection next. *)
Inductive Task : Type :=
| Arrived (body : Body)
| Checked (fields : Fields)
| Replied (response : Response).

Definition step (t : Task) (s : Store) : Store * Task :=
  match t with
  | Arrived body =>
      match createAppointment_check body s with
      | (s1, inl response) => (s1, Replied response)
      | (s1, inr fields) => (s1, Checked fields)
      end
  | Checked fields =>
      let (s1, response) := createAppointment_save fields s in
      (s1, Replied response)
  | Replied _ => (s, t)
  end.

Fixpoint set_nth {A} (n : nat) (x : A) (l : list A) : list A :=
  match l, n with
  | [], _ => []
  | _ :: rest, O => x :: rest
  | y :: rest, S n' => y :: set_nth n' x rest
  end.

Fixpoint run (schedule : list nat) (tasks : list Task) (s : Store)
  : Store * list Task :=
  match schedule with
  | [] => (s, tasks)
  | i :: schedule' =>
      match nth_error tasks i with
      | Some t => let (s1, t') := step t s in
                  run schedule' (set_nth i t' tasks) s1
      | None => run schedule' tasks s
      end
  end.

(** The requests handled one after the other, each to completion. *)
Fixpoint createAll (bodies : list Body) (s : Store) : Store * list Response :=
  match bodies with
  | [] => (s, [])
  | body :: rest =>
      let (s1, response) := createAppointment body s in
      let (s2, responses) := createAll rest s1 in
      (s2, response :: responses)
  end.

(** *** Sequences of admissions and cancellations, each call handled to
    completion before the next *)
Inductive Operation : Type :=
| Create (body : Body)
| Cancel (id : string).

Definition apply (op : Operation) (s : Store) : Store :=
  match op with
  | Create body => fst (createAppointment body s)
  | Cancel id => fst (cancelAppointment id s)
  end.

Definition applyAll (ops : list Operation) (s : Store) : Store :=
  fold_left (fun s op => apply op s) ops s.

End Handlers.

End Controller.

(** ** controllers/AppointmentController.ts, the earlier handlers

    The file under [src/controllers] holds the first version of the
    availability and creation handlers, with its own slot generator
    (09:00 to 17:00, no lunch exclusion, every booking one slot). *)

Module Legacy.

Import Mongo.

Inductive Response : Type :=
| BadRequest                                       (* 400 *)
| Conflict                                         (* 409 *)
| ServerError                                      (* 500 *)
| Slots (date : string) (slots : list string)      (* 200 *)
| Created (appointment : Appointment).             (* 201 *)

Definition START_HOUR : Z := 9.
Definition END_HOUR : Z := 17.
Definition SLOT_DURATION_MINUTES : Z := 30.

(** The two [Date]s of the generator are kept as minutes since the local
    midnight of the current day (taken to have no clock change in it):
    [setHours(h, 0, 0, 0)] is [h * 60], [getHours()] is the hour of the
    day, and [setMinutes(getMinutes() + 30)] adds 30. *)
Definition label (currentTime : Z) : string :=
  let hours := JS.padStart 2 "0" (JS.toString ((currentTime / 60) mod 24)) in
  let minutes := JS.padStart 2 "0" (JS.toString (currentTime mod 60)) in
  (hours ++ ":" ++ minutes)%string.

Fixpoint slots_loop (fuel : nat) (currentTime endTime : Z) (slots : list string)
  : option (list string) :=
  match fuel with
  | O => None
  | S fuel' =>
      if currentTime <? endTime then
        slots_loop fuel' (currentTime + SLOT_DURATION_MINUTES) endTime
                   (slots ++ [label currentTime])
      else Some slots
  end.

Definition generateAllTimeSlots : list string :=
  let currentTime := START_HOUR * 60 in
  let endTime := END_HOUR * 60 in
  match slots_loop (S (Z.to_nat (endTime - currentTime))) currentTime endTime [] with
  | Some slots => slots
  | None => []
  end.

Section Handlers.

Variable toLowerCaseElsewhere : string -> string.
Variable parseDate : string -> Date.

Definition getAvailableSlots (dateString : string) (s : Store) : Store * Response :=
  if String.eqb dateString EmptyString then (s, BadRequest)
  else
    let targetDate := parseDate dateString in
    let allSlots := generateAllTimeSlots in
    match find {| where_date := Some targetDate;
                  where_timeSlot_in := None;
                  where_status_in := Some Controller.active |} s with
    | (s1, None) => (s1, ServerError)
    | (s1, Some bookedAppointments) =>
        let bookedSlots :=
          fold_left JS.Set_add (map timeSlot bookedAppointments) [] in
        let availableSlots :=
          filter (fun slot => negb (JS.Set_has bookedSlots slot)) allSlots in
        (s1, Slots dateString availableSlots)
    end.

(** [findOne] with an equality on [timeSlot] is the first document of the
    corresponding [find]; it is recorded as that [Find]. *)
Definition createAppointment (body : Controller.Body) (s : Store) : Store * Response :=
  let duration := match Controller.req_duration body with Some d => d | None => 60 end in
  if JS.falsy (Controller.req_date body) || JS.falsy (Controller.req_timeSlot body)
     || JS.falsy (Controller.req_clientName body)
     || JS.falsy (Controller.req_clientEmail body)
  then (s, BadRequest)
  else
    let date := Controller.value (Controller.req_date body) in
    let timeSlot := Controller.value (Controller.req_timeSlot body) in
    let targetDate := parseDate date in
    match find {| where_date := Some targetDate;
                  where_timeSlot_in := Some [timeSlot];
                  where_status_in := Some Controller.active |} s with
    | (s1, None) => (s1, ServerError)
    | (s1, Some (existingAppointment :: _)) => (s1, Conflict)
    | (s1, Some []) =>
        let newAppointment :=
          construct toLowerCaseElsewhere
                    {| new_date := targetDate;
                       new_timeSlot := timeSlot;
                       new_clientName := Controller.value (Controller.req_clientName body);
                       new_clientEmail := Controller.value (Controller.req_clientEmail body);
                       new_duration := duration;
                       new_status := pending |}
                    s1 in
        (save newAppointment s1, Created newAppointment)
    end.

End Handlers.

End Legacy.

(** ** The vocabulary of the properties *)

Import Mongo Controller.

Section Properties.

Variable nextTimeSlotElsewhere : string -> string.
Variable toLowerCaseElsewhere : string -> string.
Variable parseDate : string -> Date.
Variable ObjectId_isValid : string -> bool.
Variable ObjectId_cast : string -> ObjectId.

(** A statement depends on the parameters it mentions, and on no other. *)
Local Set Default Proof Using "Type".

Ltac forget :=
  repeat match goal with
         | x : string -> _ |- _ => clear x
         end.

Local Abbreviation getNextTimeSlot :=
  (Controller.getNextTimeSlot nextTimeSlotElsewhere).
Local Abbreviation getAffectedTimeSlots :=
  (Controller.getAffectedTimeSlots nextTimeSlotElsewhere).
Local Abbreviation bookedSlots := (Controller.bookedSlots nextTimeSlotElsewhere).
Local Abbreviation construct := (Mongo.construct toLowerCaseElsewhere).
Local Abbreviation getAvailableSlots :=
  (Controller.getAvailableSlots nextTimeSlotElsewhere parseDate).
Local Abbreviation createAppointment :=
  (Controller.createAppointment nextTimeSlotElsewhere toLowerCaseElsewhere parseDate).
Local Abbreviation createAll :=
  (Controller.createAll nextTimeSlotElsewhere toLowerCaseElsewhere parseDate).
Local Abbreviation step :=
  (Controller.step nextTimeSlotElsewhere toLowerCaseElsewhere parseDate).
Local Abbreviation run :=
  (Controller.run nextTimeSlotElsewhere toLowerCaseElsewhere parseDate).
Local Abbreviation cancelAppointment :=
  (Controller.cancelAppointment ObjectId_isValid ObjectId_cast).
Local Abbreviation confirmAppointment :=
  (Controller.confirmAppointment ObjectId_isValid ObjectId_cast).
Local Abbreviation applyAll :=
  (Controller.applyAll nextTimeSlotElsewhere toLowerCaseElsewhere parseDate
                       ObjectId_isValid ObjectId_cast).
Local Abbreviation legacyGetAvailableSlots := (Legacy.getAvailableSlots parseDate).
Local Abbreviation legacyCreateAppointment :=
  (Legacy.createAppointment toLowerCaseElsewhere parseDate).

(** An active appointment is one whose status is pending or confirmed. *)
Definition isActive (a : Appointment) : bool :=
  existsb (Status_eqb (status a)) active.

(** The labels an appointment occupies: its start label, and the label
    that follows it when its duration is 60. *)
Definition occupied (a : Appointment) : list string :=
  getAffectedTimeSlots (timeSlot a) (duration a).

Definition onDate (d : Date) (a : Appointment) : bool := Date_eqb (date a) d.

(** Two distinct active appointments of one date that share a label. *)
Definition clash (a b : Appointment) : Prop :=
  _id a <> _id b /\ isActive a = true /\ isActive b = true /\
  Date_eqb (date a) (date b) = true /\
  exists l, In l (occupied a) /\ In l (occupied b).

Definition noDoubleBooking (s : Store) : Prop :=
  forall a b, In a (docs s) -> In b (docs s) -> ~ clash a b.

(** Two distinct active appointments of one date with the same start. *)
Definition sameStart (a b : Appointment) : Prop :=
  _id a <> _id b /\ isActive a = true /\ isActive b = true /\
  Date_eqb (date a) (date b) = true /\ timeSlot a = timeSlot b.

(** Names for the pieces of [createAppointment] and [getAvailableSlots]
    that the statements mention; [createAppointment_valid] and
    [getAvailableSlots_valid] below tie them to the handlers. *)

(** The effective duration of a request: 60 when the field is absent. *)
Definition durationOf (body : Body) : Z :=
  match req_duration body with Some d => d | None => 60 end.

(** The request passes the field validation of [createAppointment]. *)
Definition wellFormed (body : Body) : bool :=
  negb (JS.falsy (req_date body) || JS.falsy (req_timeSlot body)
        || JS.falsy (req_clientName body) || JS.falsy (req_clientEmail body)
        || (durationOf body <? 30)).

(** The labels a request needs ([slotsToVerify]). *)
Definition requiredLabels (body : Body) : list string :=
  getAffectedTimeSlots (value (req_timeSlot body)) (durationOf body).

Definition request (date timeSlot : string) (duration : Z) : Body :=
  {| req_date := Some date;
     req_timeSlot := Some timeSlot;
     req_clientName := Some "Ana"%string;
     req_clientEmail := Some "ana@example.com"%string;
     req_duration := Some duration |}.

(** The availability query of [createAppointment] for a request whose date
    parsed to [d], and the fields of the document it goes on to build. *)
Definition admissionQuery (d : Date) (body : Body) : Query :=
  {| where_date := Some d;
     where_timeSlot_in := Some (requiredLabels body);
     where_status_in := Some active |}.

Definition admissionFields (d : Date) (body : Body) : Fields :=
  {| new_date := d;
     new_timeSlot := value (req_timeSlot body);
     new_clientName := value (req_clientName body);
     new_clientEmail := value (req_clientEmail body);
     new_duration := durationOf body;
     new_status := pending |}.

(** The availability query of [getAvailableSlots]. *)
Definition dayQuery (d : Date) : Query :=
  {| where_date := Some d;
     where_timeSlot_in := None;
     where_status_in := Some active |}.

(** No active appointment of the day starts at a label the request needs. *)
Definition startsFree (d : Z) (body : Body) (s : Store) : Prop :=
  forall a, In a (docs s) -> isActive a = true -> date a = Some d ->
            ~ In (timeSlot a) (requiredLabels body).

(** No active appointment of the day occupies the label. *)
Definition freeOn (d : Z) (s : Store) (label : string) : Prop :=
  forall a, In a (docs s) -> isActive a = true -> date a = Some d ->
            ~ In label (occupied a).

(** The document a [request] becomes once it has an identifier. *)
Definition booking (id : ObjectId) (d : Z) (timeSlot : string) (duration : Z)
           (status : Status) : Appointment :=
  {| _id := id;
     date := Some d;
     timeSlot := timeSlot;
     clientName := "Ana";
     clientEmail := "ana@example.com";
     duration := duration;
     status := status |}.

Arguments booking id%_nat d%_Z timeSlot%_string duration%_Z status.

Definition isCreated (r : Response) : bool :=
  match r with Created _ => true | _ => false end.

Definition isConflict (r : Response) : bool :=
  match r with Conflict _ => true | _ => false end.

(** *** A concrete environment, for running the handlers

    Dates are read as [YYYY-MM-DD] days of January 2025 and identifiers as
    24 hexadecimal digits. *)
Definition january (dateString : string) : Date :=
  match JS.split "-" dateString with
  | [y; m; d] =>
      if String.eqb y "2025" && String.eqb m "01" && (String.length d =? 2)%nat then
        match JS.clockField d with
        | Some n => if (1 <=? n) && (n <=? 31)
                    then Some (1735689600000 + (n - 1) * 86400000)
                    else None
        | None => None
        end
      else None
  | _ => None
  end.

Definition hexDigit (c : ascii) : option nat :=
  let n := nat_of_ascii c in
  if ((48 <=? n) && (n <=? 57))%nat then Some (n - 48)%nat
  else if ((97 <=? n) && (n <=? 102))%nat then Some (n - 87)%nat
  else None.

Fixpoint hexValue (acc : nat) (s : string) : option nat :=
  match s with
  | EmptyString => Some acc
  | String c rest =>
      match hexDigit c with
      | Some v => hexValue (16 * acc + v) rest
      | None => None
      end
  end.

Definition hex24 (id : string) : bool :=
  (String.length id =? 24)%nat &&
  match hexValue 0 id with Some _ => true | None => false end.

Definition hexCast (id : string) : ObjectId :=
  match hexValue 0 id with Some n => n | None => 0%nat end.

Definition id1 : string := "000000000000000000000001".
Definition id2 : string := "000000000000000000000002".

Definition slotsOf (r : Response) : list string :=
  match r with Slots _ slots => slots | _ => [] end.

(** The scenarios use clock labels and ASCII e-mail addresses only, so the
    two runtime parameters for other strings are never consulted there;
    this stands for both. *)
Definition notConsulted (s : string) : string := s.

(** The day and the requests of the scenarios. *)
Definition day : string := "2025-01-15".
Definition midnight : Z := 1736899200000.

(** What the admission test does maintain: identifiers are unique and no
    two distinct active appointments of one date have the same start. *)
Definition wellKept (s : Store) : Prop :=
  NoDup (map _id (docs s)) /\
  forall a b, In a (docs s) -> In b (docs s) -> ~ sameStart a b.

(** *** The claims that need a formula

    Each is the claim as the specification words it, over the handlers run
    with the runtime they are given. *)

(** Two requests overlap when they need a common label. *)
Definition pairwiseOverlap (bodies : list Body) : Prop :=
  forall b1 b2, In b1 bodies -> In b2 bodies ->
                exists label, In label (requiredLabels b1) /\ In label (requiredLabels b2).

(** N >= 2 requests for one date, pairwise overlapping, arriving together on
    an empty store: however their steps interleave, once all have been
    answered exactly one was created, the others got a conflict, and the
    store holds one document. *)
Definition oneWinnerUnderConcurrency : Prop :=
  forall (bodies : list Body) (d : Z) (schedule : list nat)
         (s : Store) (responses : list Response),
    (2 <= List.length bodies)%nat ->
    (forall body, In body bodies ->
                  wellFormed body = true /\
                  parseDate (value (req_date body)) = Some d) ->
    pairwiseOverlap bodies ->
    run schedule (map Arrived bodies) empty = (s, map Replied responses) ->
    List.length (filter isCreated responses) = 1%nat /\
    List.length (filter isConflict responses) = (List.length bodies - 1)%nat /\
    List.length (docs s) = 1%nat.

(** A request whose duration is not a positive multiple of 30, or whose
    start is not a grid label, is answered 400 with the store untouched. *)
Definition gridValidation : Prop :=
  forall (body : Body) (s : Store),
    ~ (0 < durationOf body /\ durationOf body mod 30 = 0) \/
    ~ In (value (req_timeSlot body)) TimeSlots.generateAllTimeSlots ->
    createAppointment body s = (s, BadRequest).

(** After cancelling an active appointment, a query for its date returns
    every label it occupied that no other active appointment occupies. *)
Definition cancelFreesEveryLabel : Prop :=
  forall (id dateString : string) (s s1 s2 : Store) (a : Appointment) (d : Z)
         (response : Response) (slots : list string) (label : string),
    ObjectId_isValid id = true ->
    NoDup (map _id (docs s)) ->
    In a (docs s) -> _id a = ObjectId_cast id -> isActive a = true ->
    date a = Some d -> parseDate dateString = Some d ->
    cancelAppointment id s = (s1, response) ->
    getAvailableSlots dateString s1 = (s2, Slots dateString slots) ->
    In label (occupied a) ->
    (forall b, In b (docs s) -> _id b <> _id a -> isActive b = true ->
               date b = Some d -> ~ In label (occupied b)) ->
    In label slots.

(** *** Vocabulary for the rest of the handlers *)

(** The filter of [getAllAppointments]. *)
Definition allActiveQuery : Query :=
  {| where_date := None;
     where_timeSlot_in := None;
     where_status_in := Some active |}.

Definition listed (r : Listing) : list Appointment :=
  match r with Appointments l => l | ListingError => [] end.

(** An active appointment of the day that starts at a label the request
    needs: what the availability query of [createAppointment] matches. *)
Definition taken (d : Z) (body : Body) (a : Appointment) : Prop :=
  isActive a = true /\ date a = Some d /\ In (timeSlot a) (requiredLabels body).

(** What a booking fixes of an appointment: every field of the record but
    the status. *)
Definition bookingData (a : Appointment)
  : ObjectId * Date * string * string * string * Z :=
  (_id a, date a, timeSlot a, clientName a, clientEmail a, duration a).

(** The field test of the earlier [createAppointment]: no duration test. *)
Definition legacyWellFormed (body : Body) : bool :=
  negb (JS.falsy (req_date body) || JS.falsy (req_timeSlot body)
        || JS.falsy (req_clientName body) || JS.falsy (req_clientEmail body)).

Definition legacySlotsOf (r : Legacy.Response) : list string :=
  match r with Legacy.Slots _ slots => slots | _ => [] end.

(** The query of the earlier [createAppointment]: the start label itself. *)
Definition legacyQuery (d : Date) (body : Body) : Query :=
  {| where_date := Some d;
     where_timeSlot_in := Some [value (req_timeSlot body)];
     where_status_in := Some active |}.

(** The minutes [start, start + 30, ...] below [stop]. *)
Definition halfHours (start stop : Z) : list Z :=
  map (fun k => start + 30 * Z.of_nat k)
      (seq 0 (Z.to_nat ((stop - start + 29) / 30))).

(** ** Lemmas on the helpers *)

Lemma Set_has_In (set : list string) (x : string) :
  JS.Set_has set x = true <-> In x set.
Proof.
  unfold JS.Set_has. rewrite existsb_exists. split.
  - intros [y [Hy Heq]]. apply String.eqb_eq in Heq. now subst.
  - intros Hx. exists x. split; [assumption | apply String.eqb_refl].
Qed.

Lemma Set_has_false (set : list string) (x : string) :
  JS.Set_has set x = false <-> ~ In x set.
Proof.
  rewrite <- Set_has_In. destruct (JS.Set_has set x); split; congruence.
Qed.

Lemma Set_add_In (set : list string) (x y : string) :
  In y (JS.Set_add set x) <-> In y set \/ y = x.
Proof.
  unfold JS.Set_add. destruct (JS.Set_has set x) eqn:Hhas.
  - apply Set_has_In in Hhas. split; [now left | intros [H | ->]; assumption].
  - rewrite in_app_iff. simpl. (forget; intuition congruence).
Qed.

Lemma occupied_In (a : Appointment) (y : string) :
  In y (occupied a) <->
  y = timeSlot a \/ (duration a =? 60) = true /\ y = getNextTimeSlot (timeSlot a).
Proof.
  unfold occupied, getAffectedTimeSlots.
  destruct (duration a =? 60); simpl; (forget; intuition congruence).
Qed.

Lemma booked_fold_In (l : list Appointment) (acc : list string) (y : string) :
  In y (fold_left
          (fun set app =>
             let set := JS.Set_add set (timeSlot app) in
             if duration app =? 60
             then JS.Set_add set (getNextTimeSlot (timeSlot app))
             else set) l acc)
  <-> In y acc \/ exists a, In a l /\ In y (occupied a).
Proof.
  revert acc. induction l as [| a l IH]; intros acc; simpl.
  - split; [now left | intros [H | [a [[] _]]]; exact H].
  - rewrite IH. clear IH. split.
    + intros [Hacc | [b [Hb Hy]]].
      * destruct (duration a =? 60) eqn:Hd.
        -- apply Set_add_In in Hacc as [Hacc | ->].
           ++ apply Set_add_In in Hacc as [Hacc | ->]; [now left |].
              right. exists a. split; [now left | apply occupied_In; now left].
           ++ right. exists a. split; [now left | apply occupied_In; now right].
        -- apply Set_add_In in Hacc as [Hacc | ->]; [now left |].
           right. exists a. split; [now left | apply occupied_In; now left].
      * right. exists b. split; [now right | assumption].
    + intros [Hacc | [b [[<- | Hb] Hy]]].
      * left. destruct (duration a =? 60); repeat (apply Set_add_In; left); assumption.
      * left. apply occupied_In in Hy as [-> | [Hd ->]].
        -- destruct (duration a =? 60).
           ++ apply Set_add_In. left. apply Set_add_In. now right.
           ++ apply Set_add_In. now right.
        -- rewrite Hd. apply Set_add_In. now right.
      * right. exists b. split; assumption.
Qed.

Lemma bookedSlots_In (l : list Appointment) (y : string) :
  In y (bookedSlots l) <-> exists a, In a l /\ In y (occupied a).
Proof.
  unfold bookedSlots. rewrite booked_fold_In. simpl. (forget; tauto).
Qed.

Lemma filter_from_In {A} (f : A -> nat -> bool) (l : list A) (k : nat) (x : A) :
  In x (JS.filter_from f k l) <->
  exists i, nth_error l i = Some x /\ f x (k + i)%nat = true.
Proof.
  revert k. induction l as [| y l IH]; intros k; simpl.
  - split; [intros [] | intros [[| i] [H _]]; discriminate].
  - assert (Hstep : In x (JS.filter_from f (S k) l) <->
                    exists i, nth_error l i = Some x /\ f x (k + S i)%nat = true).
    { rewrite IH. split; intros [i [H1 H2]]; exists i; split; trivial;
        now replace (k + S i)%nat with (S k + i)%nat in * by lia. }
    destruct (f y k) eqn:Hf; simpl; rewrite Hstep; split.
    + intros [<- | [i Hi]].
      * exists 0%nat. simpl. now rewrite Nat.add_0_r.
      * exists (S i). exact Hi.
    + intros [[| i] [H1 H2]].
      * left. simpl in H1. congruence.
      * right. exists i. split; assumption.
    + intros [i Hi]. exists (S i). exact Hi.
    + intros [[| i] [H1 H2]].
      * simpl in H1. injection H1 as ->. rewrite Nat.add_0_r in H2. congruence.
      * exists i. split; assumption.
Qed.

Lemma filter_indexed_In {A} (f : A -> nat -> bool) (l : list A) (x : A) :
  In x (JS.filter_indexed f l) <-> exists i, nth_error l i = Some x /\ f x i = true.
Proof. unfold JS.filter_indexed. now rewrite filter_from_In. Qed.

(** The callback keeps [slot] at [index] exactly when neither it nor the
    next element of the array is booked, and there is a next element. *)
Lemma rules_true (booked array : list string) (slot : string) (index : nat) :
  rules booked array slot index = true <->
  ~ In slot booked /\
  exists nextSlot, nth_error array (S index) = Some nextSlot /\ ~ In nextSlot booked.
Proof.
  unfold rules. replace (index + 1)%nat with (S index) by lia.
  destruct (JS.Set_has booked slot) eqn:Hslot.
  - apply Set_has_In in Hslot. split; [discriminate | (forget; tauto)].
  - apply Set_has_false in Hslot.
    destruct (Nat.leb_spec (List.length array) (S index)) as [Hlen | Hlen].
    + split; [discriminate |]. intros [_ [n [Hn _]]].
      apply nth_error_None in Hlen. congruence.
    + destruct (nth_error array (S index)) as [n |] eqn:Hn.
      * destruct (JS.Set_has booked n) eqn:Hb.
        -- apply Set_has_In in Hb. split; [discriminate |].
           intros [_ [n' [Hn' Hfree]]]. congruence.
        -- apply Set_has_false in Hb. split; [| reflexivity].
           intros _. split; [assumption |]. now exists n.
      * apply nth_error_None in Hn. lia.
Qed.

(** *** The grid *)

Lemma grid_value :
  TimeSlots.generateAllTimeSlots =
  ["06:00"; "06:30"; "07:00"; "07:30"; "08:00"; "08:30"; "09:00"; "09:30";
   "10:00"; "10:30"; "11:00"; "11:30"; "12:00"; "14:00"; "14:30"; "15:00";
   "15:30"; "16:00"; "16:30"; "17:00"; "17:30"; "18:00"; "18:30"; "19:00";
   "19:30"; "20:00"]%string.
Proof. vm_compute. reflexivity. Qed.

(** The loop of the generator returns from every starting minute and every
    list built so far: the fuel of [generateAllTimeSlots] is never short. *)
Lemma slots_loop_returns (n : nat) :
  forall currentTimeMinutes slots fuel,
    (Z.to_nat (TimeSlots.endMinutes - currentTimeMinutes) <= n)%nat ->
    (n < fuel)%nat ->
    exists result, TimeSlots.slots_loop fuel currentTimeMinutes slots = Some result.
Proof.
  assert (Hend : TimeSlots.endMinutes = 1230) by reflexivity.
  assert (Hls : TimeSlots.LUNCH_START_MINUTES = 750) by reflexivity.
  assert (Hle : TimeSlots.LUNCH_END_MINUTES = 840) by reflexivity.
  assert (Hsd : TimeSlots.SLOT_DURATION_MINUTES = 30) by reflexivity.
  induction n as [| n IH]; intros cur slots fuel Hn Hfuel;
    (destruct fuel as [| fuel]; [lia |]); simpl;
    destruct (Z.ltb_spec cur TimeSlots.endMinutes) as [Hlt | Hge];
    try (eexists; reflexivity); try lia.
  destruct ((TimeSlots.LUNCH_START_MINUTES <=? cur) && (cur <? TimeSlots.LUNCH_END_MINUTES))
    eqn:Hlunch.
  - apply andb_true_iff in Hlunch as [H1 H2].
    apply Z.leb_le in H1. apply Z.ltb_lt in H2.
    apply IH; lia.
  - apply IH; lia.
Qed.

Lemma generateAllTimeSlots_returns :
  TimeSlots.slots_loop (TimeSlots.enough_fuel (TimeSlots.START_HOUR * 60))
                       (TimeSlots.START_HOUR * 60) []
  = Some TimeSlots.generateAllTimeSlots.
Proof.
  unfold TimeSlots.generateAllTimeSlots.
  destruct (slots_loop_returns
              (Z.to_nat (TimeSlots.endMinutes - TimeSlots.START_HOUR * 60))
              (TimeSlots.START_HOUR * 60) []
              (TimeSlots.enough_fuel (TimeSlots.START_HOUR * 60)))
    as [result Hresult]; [lia | unfold TimeSlots.enough_fuel; lia |].
  now rewrite Hresult.
Qed.

(** ** The handlers, equation by equation *)

Lemma matches_admission (d : Date) (body : Body) (a : Appointment) :
  matches (admissionQuery d body) a =
  onDate d a && existsb (String.eqb (timeSlot a)) (requiredLabels body) && isActive a.
Proof. reflexivity. Qed.

Lemma matches_day (d : Date) (a : Appointment) :
  matches (dayQuery d) a = onDate d a && isActive a.
Proof. unfold matches, dayQuery, onDate, isActive. simpl. now rewrite andb_true_r. Qed.

Lemma createAppointment_invalid (body : Body) (s : Store) :
  wellFormed body = false -> createAppointment body s = (s, BadRequest).
Proof.
  unfold wellFormed, durationOf, Controller.createAppointment,
    Controller.createAppointment_check.
  intros H. apply negb_false_iff in H. now rewrite H.
Qed.

Lemma createAppointment_valid (body : Body) (s : Store) (d : Z) :
  wellFormed body = true ->
  parseDate (value (req_date body)) = Some d ->
  createAppointment body s =
  let q := admissionQuery (Some d) body in
  let s1 := called (Find q) s in
  match filter (matches q) (docs s) with
  | [] => let newAppointment := construct (admissionFields (Some d) body) s1 in
          (save newAppointment s1, Created newAppointment)
  | first :: _ => (s1, Conflict (timeSlot first))
  end.
Proof.
  unfold wellFormed, durationOf, Controller.createAppointment,
    Controller.createAppointment_check.
  intros H Hd. apply negb_true_iff in H. rewrite H, Hd.
  unfold find. cbn [where_date].
  unfold admissionQuery, requiredLabels, durationOf.
  destruct (filter _ (docs s)); reflexivity.
Qed.

Lemma createAppointment_baddate (body : Body) (s : Store) :
  wellFormed body = true ->
  parseDate (value (req_date body)) = None ->
  createAppointment body s = (s, ServerError).
Proof.
  unfold wellFormed, durationOf, Controller.createAppointment,
    Controller.createAppointment_check.
  intros H Hd. apply negb_true_iff in H. now rewrite H, Hd.
Qed.

Lemma getAvailableSlots_valid (dateString : string) (s : Store) (d : Z) :
  dateString <> EmptyString ->
  parseDate dateString = Some d ->
  getAvailableSlots dateString s =
  let booked := bookedSlots (filter (matches (dayQuery (Some d))) (docs s)) in
  (called (Find (dayQuery (Some d))) s,
   Slots dateString
         (JS.filter_indexed (rules booked TimeSlots.generateAllTimeSlots)
                            TimeSlots.generateAllTimeSlots)).
Proof.
  intros Hne Hd. unfold Controller.getAvailableSlots.
  apply String.eqb_neq in Hne. rewrite Hne, Hd. reflexivity.
Qed.

Lemma wellFormed_request (dateString timeSlot : string) (duration : Z) :
  dateString <> EmptyString -> timeSlot <> EmptyString -> 30 <= duration ->
  wellFormed (request dateString timeSlot duration) = true.
Proof.
  intros Hd Ht Hdur. unfold wellFormed, request, durationOf. simpl.
  apply String.eqb_neq in Hd. apply String.eqb_neq in Ht.
  rewrite Hd, Ht. simpl. apply negb_true_iff. apply Z.ltb_ge. exact Hdur.
Qed.

Lemma Date_eqb_eq (x : Date) (d : Z) : Date_eqb x (Some d) = true <-> x = Some d.
Proof.
  destruct x as [y |]; simpl; [| split; discriminate].
  rewrite Z.eqb_eq. split; congruence.
Qed.

Lemma isActive_status (a : Appointment) :
  isActive a = true <-> status a = pending \/ status a = confirmed.
Proof.
  unfold isActive. destruct (status a); simpl; split; intros H; try reflexivity;
    try discriminate; try (forget; tauto); destruct H; discriminate.
Qed.

Lemma matches_admission_true (d : Z) (body : Body) (a : Appointment) :
  matches (admissionQuery (Some d) body) a = true <->
  date a = Some d /\ In (timeSlot a) (requiredLabels body) /\ isActive a = true.
Proof.
  rewrite matches_admission, !andb_true_iff. unfold onDate.
  rewrite Date_eqb_eq, <- Set_has_In. unfold JS.Set_has. (forget; tauto).
Qed.

Lemma matches_day_true (d : Z) (a : Appointment) :
  matches (dayQuery (Some d)) a = true <-> date a = Some d /\ isActive a = true.
Proof.
  rewrite matches_day, andb_true_iff. unfold onDate. now rewrite Date_eqb_eq.
Qed.

Lemma filter_empty {A} (f : A -> bool) (l : list A) :
  filter f l = [] <-> forall x, In x l -> f x = false.
Proof.
  induction l as [| y l IH]; simpl.
  - split; [intros _ x [] | reflexivity].
  - destruct (f y) eqn:Hy.
    + split; [discriminate |]. intros H. specialize (H y (or_introl eq_refl)). congruence.
    + rewrite IH. split.
      * intros H x [<- | Hx]; auto.
      * intros H x Hx. apply H. now right.
Qed.

(** The admission succeeds exactly on the strength of start labels. *)
Lemma createAppointment_admits (body : Body) (s : Store) (d : Z) :
  wellFormed body = true ->
  parseDate (value (req_date body)) = Some d ->
  startsFree d body s ->
  let s1 := called (Find (admissionQuery (Some d) body)) s in
  let newAppointment := construct (admissionFields (Some d) body) s1 in
  createAppointment body s = (save newAppointment s1, Created newAppointment).
Proof.
  intros Hwf Hd Hfree s1 newAppointment.
  rewrite (createAppointment_valid _ _ d Hwf Hd). cbv zeta.
  replace (filter (matches (admissionQuery (Some d) body)) (docs s)) with (@nil Appointment);
    [reflexivity |].
  symmetry. apply filter_empty. intros a Ha.
  destruct (matches (admissionQuery (Some d) body) a) eqn:Hm; [| reflexivity].
  apply matches_admission_true in Hm as [Hdate [Hin Hact]].
  exfalso. exact (Hfree a Ha Hact Hdate Hin).
Qed.

Lemma createAppointment_rejects (body : Body) (s : Store) (d : Z) (a : Appointment) :
  wellFormed body = true ->
  parseDate (value (req_date body)) = Some d ->
  In a (docs s) -> isActive a = true -> date a = Some d ->
  In (timeSlot a) (requiredLabels body) ->
  exists conflictSlot,
    createAppointment body s =
    (called (Find (admissionQuery (Some d) body)) s, Conflict conflictSlot)
    /\ In conflictSlot (requiredLabels body).
Proof.
  intros Hwf Hd Ha Hact Hdate Hin.
  rewrite (createAppointment_valid _ _ d Hwf Hd). cbv zeta.
  destruct (filter (matches (admissionQuery (Some d) body)) (docs s)) as [| first rest] eqn:Hf.
  - exfalso. rewrite filter_empty in Hf. specialize (Hf a Ha).
    assert (Hm : matches (admissionQuery (Some d) body) a = true)
      by (apply matches_admission_true; auto).
    congruence.
  - exists (timeSlot first). split; [reflexivity |].
    assert (Hfirst : In first (filter (matches (admissionQuery (Some d) body)) (docs s)))
      by (rewrite Hf; now left).
    apply filter_In in Hfirst as [_ Hm].
    now apply matches_admission_true in Hm.
Qed.

(** The identifier of a new document is above every identifier in use. *)
Lemma newObjectId_fresh (s : Store) (a : Appointment) :
  In a (docs s) -> (_id a < newObjectId s)%nat.
Proof.
  unfold newObjectId. induction (docs s) as [| b l IH]; simpl; [intros [] |].
  intros [-> | Ha]; [lia |]. specialize (IH Ha). lia.
Qed.

(** ** The claims *)

(** C6.  With START_HOUR = 6, END_HOUR_LIMIT = 20.5, 30-minute slots and the
    lunch window 12:30 to 14:00, the list that [generateAllTimeSlots]
    returns has "12:00" immediately followed by "14:00", contains none of
    "12:30", "13:00", "13:30", and ends with "20:00". *)
Theorem C6_grid_scenario_B :
  TimeSlots.START_HOUR = 6 /\ TimeSlots.endMinutes = 20 * 60 + 30 /\
  TimeSlots.LUNCH_START_MINUTES = 12 * 60 + 30 /\
  TimeSlots.LUNCH_END_MINUTES = 14 * 60 /\
  (exists before after,
      TimeSlots.generateAllTimeSlots
      = before ++ "12:00"%string :: "14:00"%string :: after) /\
  ~ In "12:30"%string TimeSlots.generateAllTimeSlots /\
  ~ In "13:00"%string TimeSlots.generateAllTimeSlots /\
  ~ In "13:30"%string TimeSlots.generateAllTimeSlots /\
  last TimeSlots.generateAllTimeSlots EmptyString = "20:00"%string.
Proof.
  repeat (split; [reflexivity |]).
  rewrite grid_value. split.
  - exists ["06:00"; "06:30"; "07:00"; "07:30"; "08:00"; "08:30"; "09:00"; "09:30";
            "10:00"; "10:30"; "11:00"; "11:30"]%string.
    eexists. reflexivity.
  - repeat split; try reflexivity;
      intros H; simpl in H; repeat (destruct H as [H | H]; [discriminate |]); exact H.
Qed.

(** C1.  The invariant fails on the code: after admitting a 60-minute
    booking at 09:00 and then a 30-minute booking at 09:30 on the same date,
    from the empty store, both are pending and both occupy "09:30".  The
    second admission looks only for appointments that start at 09:30. *)
Theorem C1_overlap_admitted (dateString : string) (d : Z) :
  dateString <> EmptyString ->
  parseDate dateString = Some d ->
  let s := applyAll [Create (request dateString "09:00" 60);
                     Create (request dateString "09:30" 30)] empty in
  docs s = [booking 1 d "09:00" 60 pending; booking 2 d "09:30" 30 pending]
  /\ clash (booking 1 d "09:00" 60 pending) (booking 2 d "09:30" 30 pending)
  /\ ~ noDoubleBooking s.
Proof.
  intros Hne Hd s.
  assert (Hdocs : docs s = [booking 1 d "09:00" 60 pending; booking 2 d "09:30" 30 pending]).
  { subst s. unfold Controller.applyAll. cbn [fold_left Controller.apply].
    pose proof (createAppointment_admits (request dateString "09:00" 60) empty d) as H1.
    cbv zeta in H1. rewrite H1; clear H1;
      [| apply wellFormed_request; [assumption | discriminate | lia]
       | exact Hd
       | intros a Ha; simpl in Ha; contradiction ].
    cbn [fst].
    match goal with
    | |- docs (fst (createAppointment ?body ?s1)) = _ =>
        pose proof (createAppointment_admits body s1 d) as H2
    end.
    cbv zeta in H2. rewrite H2; clear H2;
      [ reflexivity
      | apply wellFormed_request; [assumption | discriminate | lia]
      | exact Hd
      | ].
    intros a Ha _ _ H. simpl in Ha. destruct Ha as [<- | []].
    vm_compute in H. destruct H as [H | []]. discriminate. }
  assert (Hclash : clash (booking 1 d "09:00" 60 pending) (booking 2 d "09:30" 30 pending)).
  { unfold clash. simpl. rewrite Z.eqb_refl. repeat split; try discriminate.
    exists "09:30"%string. split; vm_compute; (forget; tauto). }
  split; [exact Hdocs | split; [exact Hclash |]].
  intros Hinv. apply (Hinv _ _) in Hclash; [assumption | |]; rewrite Hdocs; simpl; (forget; tauto).
Qed.

(** C2.  The conflict test fails on the second label of a 60-minute
    appointment: when an active appointment of the day has duration 60 and
    the label after its start is one the request needs, but no active
    appointment of the day starts at a needed label, [createAppointment]
    answers 201 and stores a pending document that clashes with the
    existing one, where the claim asks for a conflict error. *)
Theorem C2_second_label_not_matched
        (body : Body) (s : Store) (d : Z) (existing : Appointment) :
  wellFormed body = true ->
  parseDate (value (req_date body)) = Some d ->
  In existing (docs s) -> isActive existing = true -> date existing = Some d ->
  duration existing = 60 ->
  In (getNextTimeSlot (timeSlot existing)) (requiredLabels body) ->
  startsFree d body s ->
  exists s' doc,
    createAppointment body s = (s', Created doc) /\
    docs s' = docs s ++ [doc] /\ status doc = pending /\
    In (getNextTimeSlot (timeSlot existing)) (occupied existing) /\
    clash existing doc.
Proof.
  intros Hwf Hd Hin Hact Hdate Hdur Hnext Hfree.
  pose proof (createAppointment_admits body s d Hwf Hd Hfree) as Hcreate.
  cbv zeta in Hcreate.
  assert (Hocc : In (getNextTimeSlot (timeSlot existing)) (occupied existing)).
  { apply occupied_In. right. split; [now rewrite Hdur | reflexivity]. }
  eexists. eexists. split; [exact Hcreate |].
  split; [reflexivity |]. split; [reflexivity |]. split; [exact Hocc |].
  unfold clash. repeat split.
  - pose proof (newObjectId_fresh s existing Hin) as Hfresh.
    cbn [construct _id]. unfold newObjectId in *. cbn [called docs]. lia.
  - exact Hact.
  - cbn [construct date admissionFields new_date]. rewrite Hdate. simpl. apply Z.eqb_refl.
  - exists (getNextTimeSlot (timeSlot existing)). split; [exact Hocc | exact Hnext].
Qed.

(** What [getAvailableSlots] returns, label by label: a grid label is kept
    exactly when it and the next element of the grid array are both free. *)
Lemma getAvailableSlots_slots (dateString : string) (s : Store) (d : Z) :
  dateString <> EmptyString ->
  parseDate dateString = Some d ->
  exists slots,
    getAvailableSlots dateString s
    = (called (Find (dayQuery (Some d))) s, Slots dateString slots) /\
    forall slot,
      In slot slots <->
      exists i next,
        nth_error TimeSlots.generateAllTimeSlots i = Some slot /\
        nth_error TimeSlots.generateAllTimeSlots (S i) = Some next /\
        freeOn d s slot /\ freeOn d s next.
Proof.
  intros Hne Hd. rewrite (getAvailableSlots_valid _ _ d Hne Hd). cbv zeta.
  eexists. split; [reflexivity |]. intros slot.
  assert (Hfree : forall label,
             ~ In label (bookedSlots (filter (matches (dayQuery (Some d))) (docs s)))
             <-> freeOn d s label).
  { intros label. rewrite bookedSlots_In. unfold freeOn. split.
    - intros H a Ha Hact Hdate Hocc. apply H. exists a. split; [| exact Hocc].
      apply filter_In. split; [exact Ha |]. apply matches_day_true. now split.
    - intros H [a [Ha Hocc]]. apply filter_In in Ha as [Ha Hm].
      apply matches_day_true in Hm as [Hdate Hact]. exact (H a Ha Hact Hdate Hocc). }
  rewrite filter_indexed_In. split.
  - intros [i [Hi Hrules]]. apply rules_true in Hrules as [Hslot [next [Hnext Hfn]]].
    exists i, next. repeat split; try assumption; apply Hfree; assumption.
  - intros [i [next [Hi [Hnext [Hslot Hfn]]]]]. exists i. split; [exact Hi |].
    apply rules_true. split; [apply Hfree; exact Hslot |].
    exists next. split; [exact Hnext | apply Hfree; exact Hfn].
Qed.

(** C4.  The availability computation offers the label before the lunch
    gap: whenever "12:00" and "14:00" are free on the day, "12:00" is among
    the slots returned, although a 60-minute booking there needs "12:30",
    which the grid does not contain. *)
Theorem C4_start_before_lunch_offered (dateString : string) (s : Store) (d : Z) :
  dateString <> EmptyString ->
  parseDate dateString = Some d ->
  freeOn d s "12:00" -> freeOn d s "14:00" ->
  exists s' slots,
    getAvailableSlots dateString s = (s', Slots dateString slots) /\
    In "12:00"%string slots /\
    getAffectedTimeSlots "12:00" 60 = ["12:00"; "12:30"]%string /\
    ~ In "12:30"%string TimeSlots.generateAllTimeSlots.
Proof.
  intros Hne Hd H12 H14.
  destruct (getAvailableSlots_slots dateString s d Hne Hd) as [slots [Heq Hslots]].
  exists (called (Find (dayQuery (Some d))) s), slots.
  split; [exact Heq |]. split.
  - apply Hslots. exists 12%nat, "14:00"%string. rewrite grid_value. simpl. auto.
  - split; [reflexivity |]. rewrite grid_value. simpl.
    intros H. repeat (destruct H as [H | H]; [discriminate |]). exact H.
Qed.

(** C5.  A 60-minute request at the last label of the grid is not rejected
    by validation: when no active appointment of the day starts at "20:00"
    or "20:30", [createAppointment] queries the collection, saves a pending
    60-minute document at "20:00" and answers 201. *)
Theorem C5_last_label_admitted (dateString : string) (s : Store) (d : Z) :
  dateString <> EmptyString ->
  parseDate dateString = Some d ->
  startsFree d (request dateString "20:00" 60) s ->
  last TimeSlots.generateAllTimeSlots EmptyString = "20:00"%string /\
  requiredLabels (request dateString "20:00" 60) = ["20:00"; "20:30"]%string /\
  ~ In "20:30"%string TimeSlots.generateAllTimeSlots /\
  exists s' doc,
    createAppointment (request dateString "20:00" 60) s = (s', Created doc) /\
    doc = booking (newObjectId s) d "20:00" 60 pending /\
    docs s' = docs s ++ [doc] /\
    calls s' = calls s ++ [Find (admissionQuery (Some d) (request dateString "20:00" 60));
                           Save doc].
Proof.
  intros Hne Hd Hfree.
  split; [now rewrite grid_value |]. split; [reflexivity |]. split.
  { rewrite grid_value. simpl.
    intros H. repeat (destruct H as [H | H]; [discriminate |]). exact H. }
  pose proof (createAppointment_admits (request dateString "20:00" 60) s d) as Hcreate.
  cbv zeta in Hcreate. eexists. eexists. split.
  - apply Hcreate; [| exact Hd | exact Hfree].
    apply wellFormed_request; [assumption | discriminate | lia].
  - split; [reflexivity |]. split; [reflexivity |].
    cbn [save calls called]. now rewrite <- app_assoc.
Qed.

(** C7, as amended.  A request whose duration is below 30, or whose start
    label is absent or empty, gets 400 from [createAppointment]; the store
    is the one it started from, so the collection was not reached and no
    document was created. *)
Theorem C7_validation (body : Body) (s : Store) :
  durationOf body < 30 \/ JS.falsy (req_timeSlot body) = true ->
  createAppointment body s = (s, BadRequest).
Proof.
  intros H. apply createAppointment_invalid. unfold wellFormed.
  apply negb_false_iff. rewrite !orb_true_iff, Z.ltb_lt. (forget; tauto).
Qed.

(** The validation rejects nothing else. *)
Lemma createAppointment_400_only (body : Body) (s : Store) :
  wellFormed body = true -> snd (createAppointment body s) <> BadRequest.
Proof.
  intros Hwf. destruct (parseDate (value (req_date body))) as [d |] eqn:Hd.
  - rewrite (createAppointment_valid _ _ d Hwf Hd). cbv zeta.
    destruct (filter _ (docs s)); discriminate.
  - rewrite (createAppointment_baddate _ _ Hwf Hd). discriminate.
Qed.

(** *** The grid as an array *)

Lemma grid_NoDup : NoDup TimeSlots.generateAllTimeSlots.
Proof.
  rewrite grid_value.
  repeat (constructor;
          [ simpl; intros H;
            repeat (destruct H as [H | H]; [discriminate |]); exact H | ]).
  constructor.
Qed.

Lemma grid_index_unique (i j : nat) (slot : string) :
  nth_error TimeSlots.generateAllTimeSlots i = Some slot ->
  nth_error TimeSlots.generateAllTimeSlots j = Some slot ->
  i = j.
Proof.
  intros Hi Hj.
  apply (proj1 (NoDup_nth_error TimeSlots.generateAllTimeSlots) grid_NoDup).
  - apply nth_error_Some. congruence.
  - congruence.
Qed.

Lemma grid_last_index (i : nat) :
  nth_error TimeSlots.generateAllTimeSlots i
  = Some (last TimeSlots.generateAllTimeSlots EmptyString) ->
  nth_error TimeSlots.generateAllTimeSlots (S i) = None.
Proof.
  intros Hi.
  assert (H25 : nth_error TimeSlots.generateAllTimeSlots 25
                = Some (last TimeSlots.generateAllTimeSlots EmptyString))
    by (rewrite grid_value; reflexivity).
  rewrite (grid_index_unique _ _ _ Hi H25). rewrite grid_value. reflexivity.
Qed.

(** C10.  [getAvailableSlots] has no duration parameter and applies the
    60-minute rules to every query: whatever the store holds, the slots it
    returns never include the last label of the grid, and a returned label
    sits at a grid position whose next position exists and holds a label
    that no active appointment of the day occupies. *)
Theorem C10_two_slot_rules
        (dateString : string) (s s' : Store) (date : string) (slots : list string) :
  getAvailableSlots dateString s = (s', Slots date slots) ->
  ~ In (last TimeSlots.generateAllTimeSlots EmptyString) slots /\
  exists d,
    parseDate dateString = Some d /\
    forall slot i,
      In slot slots ->
      nth_error TimeSlots.generateAllTimeSlots i = Some slot ->
      exists next,
        nth_error TimeSlots.generateAllTimeSlots (S i) = Some next /\
        freeOn d s next /\ freeOn d s slot.
Proof.
  intros H.
  destruct (String.eqb_spec dateString EmptyString) as [-> | Hne];
    [discriminate H |].
  destruct (parseDate dateString) as [d |] eqn:Hd.
  - destruct (getAvailableSlots_slots dateString s d Hne Hd) as [slots' [Heq Hslots]].
    rewrite Heq in H. injection H as _ _ <-. split.
    + intros Hlast. apply Hslots in Hlast as [i [next [Hi [Hnext _]]]].
      apply grid_last_index in Hi. congruence.
    + exists d. split; [reflexivity |]. intros slot i Hin Hi.
      apply Hslots in Hin as [j [next [Hj [Hnext [Hslot Hfree]]]]].
      rewrite (grid_index_unique _ _ _ Hi Hj). now exists next.
  - unfold Controller.getAvailableSlots in H.
    apply String.eqb_neq in Hne. rewrite Hne, Hd in H. discriminate H.
Qed.

(** *** Status updates *)

Lemma update_found (id : ObjectId) (newStatus : Status) (l : list Appointment)
      (a : Appointment) :
  NoDup (map _id l) -> In a l -> _id a = id ->
  snd (update id newStatus l) = Some (setStatus newStatus a) /\
  In (setStatus newStatus a) (fst (update id newStatus l)) /\
  (forall b, In b l -> _id b <> id -> In b (fst (update id newStatus l))) /\
  (forall b, In b (fst (update id newStatus l)) ->
             b = setStatus newStatus a \/ (In b l /\ _id b <> id)).
Proof.
  intros Hnd Ha Hid. induction l as [| x l IH]; [destruct Ha |].
  simpl in Hnd. inversion Hnd as [| ? ? Hx Hnd']; subst.
  simpl. destruct (Nat.eqb_spec (_id x) (_id a)) as [Heq | Hneq].
  - assert (x = a) as ->.
    { destruct Ha as [-> | Ha]; [reflexivity |].
      exfalso. apply Hx. rewrite Heq. now apply in_map. }
    simpl. split; [reflexivity |]. split; [now left |]. split.
    + intros b [<- | Hb] Hne; [congruence | now right].
    + intros b [<- | Hb]; [now left |]. right. split; [now right |].
      intros Hb'. apply Hx. rewrite <- Hb'. now apply in_map.
  - destruct Ha as [-> | Ha]; [congruence |].
    specialize (IH Hnd' Ha) as [IH1 [IH2 [IH3 IH4]]].
    destruct (update (_id a) newStatus l) as [rest' found]. simpl in *.
    split; [exact IH1 |]. split; [now right |]. split.
    + intros b [<- | Hb] Hne; [now left | right; auto].
    + intros b [<- | Hb]; [right; split; [now left | assumption] |].
      destruct (IH4 b Hb) as [-> | [Hin Hne]]; [now left | right; split; [now right | assumption]].
Qed.

Lemma update_missing (id : ObjectId) (newStatus : Status) (l : list Appointment) :
  (forall a, In a l -> _id a <> id) -> update id newStatus l = (l, None).
Proof.
  induction l as [| x l IH]; intros H; [reflexivity |]. simpl.
  destruct (Nat.eqb_spec (_id x) id) as [Heq | Hneq].
  - exfalso. exact (H x (or_introl eq_refl) Heq).
  - rewrite IH; [reflexivity |]. intros a Ha. apply H. now right.
Qed.

Lemma isActive_setStatus (newStatus : Status) (a : Appointment) :
  isActive (setStatus newStatus a)
  = match newStatus with cancelled => false | _ => true end.
Proof. destruct newStatus; reflexivity. Qed.

Lemma occupied_setStatus (newStatus : Status) (a : Appointment) :
  occupied (setStatus newStatus a) = occupied a.
Proof. reflexivity. Qed.

(** C8, as amended.  Cancelling an appointment frees the labels it occupied
    as far as the availability query can show them: a label it occupied is
    returned by a later query for its date when the label is in the grid
    with a next grid position, and no other active appointment of the date
    occupies the label or the label at that next position. *)
Theorem C8_cancel_frees_labels
        (id dateString : string) (s : Store) (a : Appointment) (d : Z) :
  ObjectId_isValid id = true ->
  NoDup (map _id (docs s)) ->
  In a (docs s) -> _id a = ObjectId_cast id ->
  date a = Some d -> dateString <> EmptyString -> parseDate dateString = Some d ->
  exists s1 s2 slots,
    cancelAppointment id s = (s1, Updated (setStatus cancelled a)) /\
    getAvailableSlots dateString s1 = (s2, Slots dateString slots) /\
    forall label i next,
      In label (occupied a) ->
      nth_error TimeSlots.generateAllTimeSlots i = Some label ->
      nth_error TimeSlots.generateAllTimeSlots (S i) = Some next ->
      (forall b, In b (docs s) -> _id b <> _id a -> isActive b = true ->
                 date b = Some d ->
                 ~ In label (occupied b) /\ ~ In next (occupied b)) ->
      In label slots.
Proof.
  intros Hvalid Hnd Ha Hid Hdate Hne Hd.
  destruct (update_found (ObjectId_cast id) cancelled (docs s) a Hnd Ha Hid)
    as [Hfound [_ [_ Hrest]]].
  unfold Controller.cancelAppointment. rewrite Hvalid. cbn [negb].
  unfold findByIdAndUpdate.
  destruct (update (ObjectId_cast id) cancelled (docs s)) as [docs' found] eqn:Hup.
  simpl in Hfound, Hrest. subst found.
  set (s1 := {| docs := docs';
                calls := calls s ++ [FindByIdAndUpdate (ObjectId_cast id) cancelled] |}).
  destruct (getAvailableSlots_slots dateString s1 d Hne Hd) as [slots [Heq Hslots]].
  exists s1, (called (Find (dayQuery (Some d))) s1), slots.
  split; [reflexivity |]. split; [exact Heq |].
  intros label i next Hocc Hi Hnext Hothers.
  apply Hslots. exists i, next. split; [exact Hi |]. split; [exact Hnext |].
  assert (Hfree : forall l, (forall b, In b (docs s) -> _id b <> _id a ->
                                       isActive b = true -> date b = Some d ->
                                       ~ In l (occupied b)) ->
                            freeOn d s1 l).
  { intros l Hl b Hb Hact Hbd. simpl in Hb.
    destruct (Hrest b Hb) as [-> | [Hin Hneq]].
    - rewrite isActive_setStatus in Hact. discriminate.
    - apply Hl; try assumption. congruence. }
  split; apply Hfree; intros b Hb Hneq Hact Hbd;
    destruct (Hothers b Hb Hneq Hact Hbd); assumption.
Qed.

(** C9.  [confirmAppointment] writes 'confirmed' whatever the status of the
    appointment was: for a valid identifier of a stored appointment it
    answers 200 with the appointment confirmed, stores it so, and leaves
    the others as they were.  Hence a cancelled appointment comes back
    active, and if another active appointment of its date shares a label
    with it, the two clash in the resulting store. *)
Theorem C9_confirm_unconditional (id : string) (s : Store) (a : Appointment) :
  ObjectId_isValid id = true ->
  NoDup (map _id (docs s)) ->
  In a (docs s) -> _id a = ObjectId_cast id ->
  exists s1,
    confirmAppointment id s = (s1, Updated (setStatus confirmed a)) /\
    status (setStatus confirmed a) = confirmed /\
    In (setStatus confirmed a) (docs s1) /\
    (forall b, In b (docs s) -> _id b <> _id a -> In b (docs s1)) /\
    (forall b label,
        status a = cancelled ->
        In b (docs s) -> _id b <> _id a -> isActive b = true ->
        Date_eqb (date a) (date b) = true ->
        In label (occupied a) -> In label (occupied b) ->
        clash (setStatus confirmed a) b /\ ~ noDoubleBooking s1).
Proof.
  intros Hvalid Hnd Ha Hid.
  destruct (update_found (ObjectId_cast id) confirmed (docs s) a Hnd Ha Hid)
    as [Hfound [Hin [Hkeep _]]].
  unfold Controller.confirmAppointment. rewrite Hvalid. cbn [negb].
  unfold findByIdAndUpdate.
  destruct (update (ObjectId_cast id) confirmed (docs s)) as [docs' found] eqn:Hup.
  simpl in Hfound, Hin, Hkeep. subst found.
  eexists. split; [reflexivity |]. split; [reflexivity |].
  split; [exact Hin |]. split.
  - intros b Hb Hneq. apply Hkeep; congruence.
  - intros b label _ Hb Hneq Hact Hday Ha_occ Hb_occ.
    assert (Hclash : clash (setStatus confirmed a) b).
    { unfold clash. repeat split; try assumption.
      - simpl. congruence.
      - now exists label. }
    split; [exact Hclash |]. intros Hinv.
    apply (Hinv (setStatus confirmed a) b); [exact Hin | | exact Hclash].
    apply Hkeep; [exact Hb | congruence].
Qed.

(** *** What sequences of admissions and cancellations preserve *)

Lemma update_ids (id : ObjectId) (newStatus : Status) (l : list Appointment) :
  map _id (fst (update id newStatus l)) = map _id l.
Proof.
  induction l as [| x l IH]; [reflexivity |]. simpl.
  destruct (_id x =? id)%nat; [reflexivity |].
  destruct (update id newStatus l) as [rest' found]. simpl in *. now rewrite IH.
Qed.

Lemma update_In (id : ObjectId) (newStatus : Status) (l : list Appointment)
      (b : Appointment) :
  In b (fst (update id newStatus l)) ->
  In b l \/ exists x, In x l /\ b = setStatus newStatus x.
Proof.
  induction l as [| x l IH]; [intros [] |]. simpl.
  destruct (_id x =? id)%nat.
  - intros [<- | Hb]; [right; exists x; split; [now left | reflexivity] | left; now right].
  - destruct (update id newStatus l) as [rest' found]. simpl in *.
    intros [<- | Hb]; [left; now left |].
    destruct (IH Hb) as [Hin | [y [Hy ->]]]; [left; now right |].
    right. exists y. split; [now right | reflexivity].
Qed.

Lemma requiredLabels_start (body : Body) :
  In (value (req_timeSlot body)) (requiredLabels body).
Proof.
  unfold requiredLabels, getAffectedTimeSlots.
  destruct (durationOf body =? 60); simpl; auto.
Qed.

Lemma createAppointment_wellKept (body : Body) (s : Store) :
  wellKept s -> wellKept (fst (createAppointment body s)).
Proof.
  intros [Hnd Hstart].
  destruct (wellFormed body) eqn:Hwf;
    [| now rewrite (createAppointment_invalid _ _ Hwf)].
  destruct (parseDate (value (req_date body))) as [d |] eqn:Hd;
    [| now rewrite (createAppointment_baddate _ _ Hwf Hd)].
  rewrite (createAppointment_valid _ _ d Hwf Hd). cbv zeta.
  destruct (filter (matches (admissionQuery (Some d) body)) (docs s)) eqn:Hf;
    [| split; assumption].
  rewrite filter_empty in Hf.
  set (s1 := called (Find (admissionQuery (Some d) body)) s).
  set (doc := construct (admissionFields (Some d) body) s1).
  assert (Hfresh : forall a, In a (docs s) -> _id a <> _id doc).
  { intros a Ha. pose proof (newObjectId_fresh s a Ha) as Hlt.
    subst doc s1. cbn [construct _id]. unfold newObjectId in *. cbn [called docs]. lia. }
  assert (Hfree : forall a, In a (docs s) -> ~ sameStart a doc /\ ~ sameStart doc a).
  { intros a Ha.
    assert (Hno : ~ (isActive a = true /\ Date_eqb (date a) (Some d) = true /\
                     timeSlot a = value (req_timeSlot body))).
    { intros [Hact [Hday Hslot]]. specialize (Hf a Ha).
      assert (Hm : matches (admissionQuery (Some d) body) a = true).
      { apply matches_admission_true. apply Date_eqb_eq in Hday.
        repeat split; try assumption. rewrite Hslot. apply requiredLabels_start. }
      congruence. }
    split; intros [_ [H1 [H2 [H3 H4]]]]; apply Hno; cbn in H3, H4.
    - auto.
    - repeat split; auto.
      destruct (date a) as [x |]; [| discriminate H3].
      simpl in *. now rewrite Z.eqb_sym. }
  split; cbn [fst save docs].
  - rewrite map_app. simpl. apply NoDup_app; [exact Hnd | repeat constructor; intros [] | ].
    intros x Hx [<- | []]. apply in_map_iff in Hx as [a [Hxa Ha]].
    exact (Hfresh a Ha Hxa).
  - intros a b Ha Hb.
    apply in_app_or in Ha as [Ha | [<- | []]]; apply in_app_or in Hb as [Hb | [<- | []]].
    + now apply Hstart.
    + now apply Hfree.
    + now apply Hfree.
    + intros [Hneq _]. now apply Hneq.
Qed.

Lemma cancelAppointment_wellKept (id : string) (s : Store) :
  wellKept s -> wellKept (fst (cancelAppointment id s)).
Proof.
  intros [Hnd Hstart]. unfold Controller.cancelAppointment.
  destruct (ObjectId_isValid id); cbn [negb fst]; [| split; assumption].
  unfold findByIdAndUpdate.
  pose proof (update_ids (ObjectId_cast id) cancelled (docs s)) as Hids.
  pose proof (update_In (ObjectId_cast id) cancelled (docs s)) as Hin.
  destruct (update (ObjectId_cast id) cancelled (docs s)) as [docs' found].
  cbn [fst] in Hids, Hin.
  assert (Hkept : wellKept
                    {| docs := docs';
                       calls := calls s ++ [FindByIdAndUpdate (ObjectId_cast id) cancelled] |}).
  { split; cbn [docs]; [now rewrite Hids |].
    intros a b Ha Hb [Hneq [Hact_a [Hact_b Hrest]]].
    assert (Hold : forall x, In x docs' -> isActive x = true -> In x (docs s)).
    { intros x Hx Hact. destruct (Hin x Hx) as [H | [y [_ ->]]]; [exact H |].
      rewrite isActive_setStatus in Hact. discriminate. }
    apply (Hstart a b); [now apply Hold | now apply Hold |].
    unfold sameStart. auto. }
  destruct found; exact Hkept.
Qed.

(** X15.  From the empty store, admissions and cancellations that are
    handled one at a time, each to completion before the next begins, keep
    identifiers unique and start labels of active appointments distinct per
    date.  (Two admissions in flight together can break the second part:
    [run] with the schedule query, query, save, save.) *)
Lemma applyAll_wellKept (ops : list Operation) :
  wellKept (applyAll ops empty).
Proof.
  unfold Controller.applyAll.
  assert (Hempty : wellKept empty) by (split; [constructor | intros a b []]).
  revert Hempty. generalize empty. induction ops as [| op ops IH]; intros s Hs.
  - exact Hs.
  - simpl. apply IH. destruct op as [body | id]; cbn [Controller.apply].
    + now apply createAppointment_wellKept.
    + now apply cancelAppointment_wellKept.
Qed.

(** *** Requests handled one after the other *)

Lemma createAll_conflicts (d : Z) (a : Appointment) (rest : list Body) :
  forall s,
    In a (docs s) -> isActive a = true -> date a = Some d ->
    (forall body, In body rest ->
                  wellFormed body = true /\
                  parseDate (value (req_date body)) = Some d /\
                  In (timeSlot a) (requiredLabels body)) ->
    exists s' losers,
      createAll rest s = (s', losers) /\ docs s' = docs s /\
      List.length losers = List.length rest /\
      Forall (fun r => isConflict r = true) losers.
Proof.
  induction rest as [| body rest IH]; intros s Ha Hact Hdate Hrest.
  - exists s, []. simpl. auto.
  - destruct (Hrest body (or_introl eq_refl)) as [Hwf [Hd Hin]].
    destruct (createAppointment_rejects body s d a Hwf Hd Ha Hact Hdate Hin)
      as [conflictSlot [Hcreate _]].
    destruct (IH (called (Find (admissionQuery (Some d) body)) s) Ha Hact Hdate)
      as [s' [losers [Hall [Hdocs [Hlen Hconf]]]]].
    { intros b Hb. apply Hrest. now right. }
    exists s', (Conflict conflictSlot :: losers).
    cbn [Controller.createAll]. rewrite Hcreate, Hall.
    split; [reflexivity |]. split; [exact Hdocs |].
    split; [simpl; now rewrite Hlen |]. constructor; [reflexivity | exact Hconf].
Qed.

(** What the conflict test does give: when the attempts are handled one
    after the other, each to completion, the first is not in conflict with
    the store, and every later attempt is for the same date and needs the
    start label of the first, then the first is created as one pending
    document and each of the others gets a conflict and leaves no
    document. *)
Lemma sequential_one_winner
        (first : Body) (rest : list Body) (s : Store) (d : Z) :
  wellFormed first = true ->
  parseDate (value (req_date first)) = Some d ->
  startsFree d first s ->
  (forall body, In body rest ->
                wellFormed body = true /\
                parseDate (value (req_date body)) = Some d /\
                In (value (req_timeSlot first)) (requiredLabels body)) ->
  exists s' winner losers,
    createAll (first :: rest) s = (s', Created winner :: losers) /\
    docs s' = docs s ++ [winner] /\ status winner = pending /\
    List.length losers = List.length rest /\
    Forall (fun r => isConflict r = true) losers.
Proof.
  intros Hwf Hd Hfree Hrest.
  pose proof (createAppointment_admits first s d Hwf Hd Hfree) as Hcreate.
  cbv zeta in Hcreate.
  set (s1 := called (Find (admissionQuery (Some d) first)) s) in *.
  set (winner := construct (admissionFields (Some d) first) s1) in *.
  destruct (createAll_conflicts d winner rest (save winner s1))
    as [s' [losers [Hall [Hdocs [Hlen Hconf]]]]].
  - cbn [save docs]. apply in_or_app. right. now left.
  - reflexivity.
  - reflexivity.
  - exact Hrest.
  - exists s', winner, losers. cbn [Controller.createAll].
    rewrite Hcreate, Hall. split; [reflexivity |].
    split; [rewrite Hdocs; reflexivity |]. auto.
Qed.

Lemma createAppointment_check_free (body : Body) (s : Store) (d : Z) :
  wellFormed body = true ->
  parseDate (value (req_date body)) = Some d ->
  startsFree d body s ->
  Controller.createAppointment_check nextTimeSlotElsewhere parseDate body s
  = (called (Find (admissionQuery (Some d) body)) s,
     inr (admissionFields (Some d) body)).
Proof.
  intros Hwf Hd Hfree.
  unfold wellFormed, durationOf in Hwf. apply negb_true_iff in Hwf.
  unfold Controller.createAppointment_check. rewrite Hwf, Hd.
  unfold find. cbn [where_date].
  replace (filter _ (docs s)) with (@nil Appointment); [reflexivity |].
  symmetry. apply filter_empty. intros a Ha.
  destruct (matches _ a) eqn:Hm; [| reflexivity].
  apply (matches_admission_true d body a) in Hm as [Hdate [Hin Hact]].
  exfalso. exact (Hfree a Ha Hact Hdate Hin).
Qed.

(** C3.  Two attempts for the same slot that are in flight together are
    both admitted: when the availability query of each runs before the
    save of the other (schedule query, query, save, save), both are
    answered 201 and the store gains two pending documents for the same
    date and start label, whatever the store held, as long as the slot was
    free for one of them alone. *)
Theorem C3_race_both_created (body : Body) (s : Store) (d : Z) :
  wellFormed body = true ->
  parseDate (value (req_date body)) = Some d ->
  startsFree d body s ->
  exists s' first second,
    run [0; 1; 0; 1]%nat [Arrived body; Arrived body] s
    = (s', [Replied (Created first); Replied (Created second)]) /\
    docs s' = docs s ++ [first; second] /\
    status first = pending /\ status second = pending /\
    clash first second.
Proof.
  intros Hwf Hd Hfree.
  set (q := admissionQuery (Some d) body).
  set (fields := admissionFields (Some d) body).
  set (s1 := called (Find q) s).
  set (s2 := called (Find q) s1).
  set (first := construct fields s2).
  set (s3 := save first s2).
  set (second := construct fields s3).
  exists (save second s3), first, second.
  assert (Hfree1 : startsFree d body s1) by exact Hfree.
  assert (Hrun : run [0; 1; 0; 1]%nat [Arrived body; Arrived body] s
                 = (save second s3,
                    [Replied (Created first); Replied (Created second)])).
  { cbn [Controller.run nth_error Controller.step Controller.set_nth].
    rewrite (createAppointment_check_free body s d Hwf Hd Hfree).
    cbn [Controller.run nth_error Controller.step Controller.set_nth].
    fold q s1.
    rewrite (createAppointment_check_free body s1 d Hwf Hd Hfree1).
    reflexivity. }
  split; [exact Hrun |]. split.
  { cbn [save docs s3 s2 s1 called]. now rewrite <- app_assoc. }
  split; [reflexivity |]. split; [reflexivity |].
  unfold clash. repeat split.
  - assert (Hlt : (_id first < newObjectId s3)%nat).
    { apply newObjectId_fresh. cbn [s3 save docs].
      apply in_or_app. right. now left. }
    cbn [second construct _id]. lia.
  - cbn [first second construct date fields admissionFields new_date Date_eqb].
    apply Z.eqb_refl.
  - exists (timeSlot first). split; apply occupied_In; now left.
Qed.

(** A request stepped twice in a row is the handler run to completion. *)
Lemma step_twice (body : Body) (s : Store) :
  let (s1, t1) := step (Arrived body) s in
  let (s2, t2) := step t1 s1 in
  (s2, t2) = (fst (createAppointment body s), Replied (snd (createAppointment body s))).
Proof.
  unfold Controller.step, Controller.createAppointment.
  destruct (Controller.createAppointment_check nextTimeSlotElsewhere parseDate body s)
    as [s1 [r | f]];
    reflexivity.
Qed.

(** ** The rest of the handlers *)

(** *** getAllAppointments *)

Lemma Date_eqb_sym (a b : Date) : Date_eqb a b = Date_eqb b a.
Proof. destruct a, b; simpl; trivial. apply Z.eqb_sym. Qed.

Lemma before_total (a b : Appointment) : before a b = true \/ before b a = true.
Proof.
  unfold before. rewrite (Date_eqb_sym (date b) (date a)).
  destruct (Date_eqb (date a) (date b)).
  - apply String.leb_total.
  - destruct (date a) as [x |], (date b) as [y |]; simpl; auto.
    destruct (Z.leb_spec x y); [now left | right]. apply Z.leb_le. lia.
Qed.

Lemma insertSorted_perm (a : Appointment) (l : list Appointment) :
  Permutation (insertSorted a l) (a :: l).
Proof.
  induction l as [| b l IH]; simpl; [reflexivity |].
  destruct (before b a); [| reflexivity].
  rewrite IH. apply perm_swap.
Qed.

Lemma insertSorted_sorted (a : Appointment) (l : list Appointment) :
  Sorted (fun x y => before x y = true) l ->
  Sorted (fun x y => before x y = true) (insertSorted a l).
Proof.
  induction l as [| b l IH]; intros Hs; simpl.
  - repeat constructor.
  - apply Sorted_inv in Hs as [Hl Hb].
    destruct (before b a) eqn:Hba.
    + constructor; [now apply IH |].
      destruct l as [| c l]; simpl.
      * now constructor.
      * destruct (before c a); constructor; [now inversion Hb | exact Hba].
    + constructor; [now constructor |]. constructor.
      destruct (before_total a b) as [H | H]; [exact H | congruence].
Qed.

Lemma sortByDateTimeSlot_spec (l : list Appointment) :
  Permutation (sortByDateTimeSlot l) l /\
  Sorted (fun x y => before x y = true) (sortByDateTimeSlot l).
Proof.
  induction l as [| a l [IHp IHs]]; simpl.
  - split; constructor.
  - split; [| now apply insertSorted_sorted].
    rewrite insertSorted_perm. now constructor.
Qed.

(** X1.  [getAllAppointments] answers with exactly the active appointments
    of the store, each once, in ascending order of date and then of start
    label, and leaves the documents as they were. *)
Theorem getAllAppointments_sorted_active (s : Store) :
  exists l,
    getAllAppointments s = (called (Find allActiveQuery) s, Appointments l) /\
    Permutation l (filter isActive (docs s)) /\
    Sorted (fun a b => before a b = true) l /\
    docs (fst (getAllAppointments s)) = docs s.
Proof.
  exists (sortByDateTimeSlot (filter (matches allActiveQuery) (docs s))).
  split; [reflexivity |].
  assert (Hf : filter (matches allActiveQuery) (docs s) = filter isActive (docs s))
    by (apply filter_ext; intros a; reflexivity).
  rewrite Hf.
  destruct (sortByDateTimeSlot_spec (filter isActive (docs s))) as [Hp Hs].
  repeat split; assumption.
Qed.

(** *** Status updates: unknown identifiers and what is left alone *)

Lemma update_none_iff (id : ObjectId) (newStatus : Status) (l : list Appointment) :
  snd (update id newStatus l) = None <-> forall a, In a l -> _id a <> id.
Proof.
  split.
  - induction l as [| x l IH]; [intros _ a [] |]. simpl.
    destruct (Nat.eqb_spec (_id x) id) as [Heq | Hneq]; [discriminate |].
    destruct (update id newStatus l) as [rest found]. simpl in *.
    intros Hnone a [<- | Ha]; [exact Hneq | now apply IH].
  - intros H. now rewrite update_missing.
Qed.

Lemma update_frame (id : ObjectId) (newStatus : Status) (l : list Appointment) :
  map bookingData (fst (update id newStatus l)) = map bookingData l /\
  forall b, In b l -> _id b <> id -> In b (fst (update id newStatus l)).
Proof.
  induction l as [| x l [IH1 IH2]]; [split; [reflexivity | intros b []] |].
  simpl. destruct (Nat.eqb_spec (_id x) id) as [Heq | Hneq].
  - split; [reflexivity |]. intros b [<- | Hb] Hne; [congruence | now right].
  - destruct (update id newStatus l) as [rest found]. simpl in *. split.
    + now rewrite IH1.
    + intros b [<- | Hb] Hne; [now left | right; auto].
Qed.

Lemma cancelAppointment_valid (id : string) (s : Store) :
  ObjectId_isValid id = true ->
  cancelAppointment id s =
  ({| docs := fst (update (ObjectId_cast id) cancelled (docs s));
      calls := calls s ++ [FindByIdAndUpdate (ObjectId_cast id) cancelled] |},
   match snd (update (ObjectId_cast id) cancelled (docs s)) with
   | Some appointment => Updated appointment
   | None => NotFound
   end).
Proof.
  intros Hvalid. unfold Controller.cancelAppointment, findByIdAndUpdate.
  rewrite Hvalid. cbn [negb].
  destruct (update (ObjectId_cast id) cancelled (docs s)) as [docs' [a |]]; reflexivity.
Qed.

Lemma confirmAppointment_valid (id : string) (s : Store) :
  ObjectId_isValid id = true ->
  confirmAppointment id s =
  ({| docs := fst (update (ObjectId_cast id) confirmed (docs s));
      calls := calls s ++ [FindByIdAndUpdate (ObjectId_cast id) confirmed] |},
   match snd (update (ObjectId_cast id) confirmed (docs s)) with
   | Some appointment => Updated appointment
   | None => NotFound
   end).
Proof.
  intros Hvalid. unfold Controller.confirmAppointment, findByIdAndUpdate.
  rewrite Hvalid. cbn [negb].
  destruct (update (ObjectId_cast id) confirmed (docs s)) as [docs' [a |]]; reflexivity.
Qed.

Lemma update_answer (id : ObjectId) (newStatus : Status) (l : list Appointment) :
  match snd (update id newStatus l) with
  | Some appointment => Updated appointment
  | None => NotFound
  end = NotFound <->
  forall a, In a l -> _id a <> id.
Proof.
  rewrite <- (update_none_iff id newStatus l).
  destruct (snd (update id newStatus l)); split; congruence.
Qed.

(** X2.  For a valid identifier, [cancelAppointment] and
    [confirmAppointment] answer 404 exactly when no document has it, and
    then every document is left as it was. *)
Theorem statusUpdate_not_found (id : string) (s : Store) :
  ObjectId_isValid id = true ->
  (snd (cancelAppointment id s) = NotFound <->
   forall a, In a (docs s) -> _id a <> ObjectId_cast id) /\
  (snd (confirmAppointment id s) = NotFound <->
   forall a, In a (docs s) -> _id a <> ObjectId_cast id) /\
  (snd (cancelAppointment id s) = NotFound ->
   docs (fst (cancelAppointment id s)) = docs s) /\
  (snd (confirmAppointment id s) = NotFound ->
   docs (fst (confirmAppointment id s)) = docs s).
Proof.
  intros Hvalid.
  rewrite (cancelAppointment_valid id s Hvalid), (confirmAppointment_valid id s Hvalid).
  cbn [fst snd docs].
  split; [apply update_answer |]. split; [apply update_answer |].
  split; intros H; pose proof (proj1 (update_answer _ _ _) H) as Hnone;
    now rewrite update_missing.
Qed.

(** X3.  A status update never adds, removes or reorders documents and
    never changes the identifier, date, start label, client name, client
    e-mail or duration of any of them: after [cancelAppointment] or
    [confirmAppointment] these read the same, document by document; and
    every document with another identifier keeps its status as well. *)
Theorem statusUpdate_keeps_booking_data (id : string) (s : Store) :
  (map bookingData (docs (fst (cancelAppointment id s))) = map bookingData (docs s) /\
   forall b, In b (docs s) -> _id b <> ObjectId_cast id ->
             In b (docs (fst (cancelAppointment id s)))) /\
  (map bookingData (docs (fst (confirmAppointment id s))) = map bookingData (docs s) /\
   forall b, In b (docs s) -> _id b <> ObjectId_cast id ->
             In b (docs (fst (confirmAppointment id s)))).
Proof.
  unfold Controller.cancelAppointment, Controller.confirmAppointment, findByIdAndUpdate.
  destruct (ObjectId_isValid id); cbn [negb fst docs]; [| repeat split; trivial].
  pose proof (update_frame (ObjectId_cast id) cancelled (docs s)) as Hc.
  pose proof (update_frame (ObjectId_cast id) confirmed (docs s)) as Hf.
  destruct (update (ObjectId_cast id) cancelled (docs s)) as [docs1 [a1 |]];
    destruct (update (ObjectId_cast id) confirmed (docs s)) as [docs2 [a2 |]];
    cbn [fst docs] in *; split; assumption.
Qed.

(** *** getAvailableSlots: what it leaves alone and the order of its answer *)

Lemma filter_from_sorted {A} (R : A -> A -> Prop) (f : A -> nat -> bool)
      (l : list A) :
  forall k, StronglySorted R l -> StronglySorted R (JS.filter_from f k l).
Proof.
  induction l as [| x l IH]; intros k Hs; simpl; [constructor |].
  apply StronglySorted_inv in Hs as [Hl Hx].
  destruct (f x k); [| now apply IH].
  constructor; [now apply IH |].
  apply Forall_forall. intros y Hy.
  apply filter_from_In in Hy as [i [Hi _]].
  rewrite Forall_forall in Hx. apply Hx. eapply nth_error_In. exact Hi.
Qed.

Lemma filter_from_incl {A} (f : A -> nat -> bool) (l : list A) (k : nat) :
  incl (JS.filter_from f k l) l.
Proof.
  intros y Hy. apply filter_from_In in Hy as [i [Hi _]].
  eapply nth_error_In. exact Hi.
Qed.

Lemma grid_ascending :
  StronglySorted (fun a b => String.ltb a b = true) TimeSlots.generateAllTimeSlots.
Proof.
  rewrite grid_value.
  repeat (apply SSorted_cons;
          [| solve [repeat (apply Forall_cons; [reflexivity |]); apply Forall_nil]]).
  apply SSorted_nil.
Qed.

(** X5.  [getAvailableSlots] only reads: the documents are the same after
    the call, whatever it answers; and the slots it returns are labels of
    the grid, in the order of the grid, which is strictly ascending. *)
Theorem getAvailableSlots_reads_only (dateString : string) (s : Store) :
  docs (fst (getAvailableSlots dateString s)) = docs s /\
  incl (slotsOf (snd (getAvailableSlots dateString s))) TimeSlots.generateAllTimeSlots /\
  StronglySorted (fun a b => String.ltb a b = true)
                 (slotsOf (snd (getAvailableSlots dateString s))).
Proof.
  unfold Controller.getAvailableSlots.
  destruct (String.eqb dateString EmptyString);
    [cbn; repeat split; [intros x [] | constructor] |].
  unfold find. cbn [where_date].
  destruct (parseDate dateString) as [d |];
    cbn [fst snd docs called slotsOf];
    [| repeat split; [intros x [] | constructor]].
  split; [reflexivity |]. split.
  - apply filter_from_incl.
  - apply filter_from_sorted. exact grid_ascending.
Qed.

(** *** createAppointment: frame and decision *)

(** X6.  [createAppointment] never touches the documents already stored:
    whatever the request, the store afterwards holds the same documents,
    followed by exactly one new pending document with a new identifier when
    the answer is 201, and by nothing otherwise. *)
Theorem createAppointment_appends_at_most_one (body : Body) (s : Store) :
  match snd (createAppointment body s) with
  | Created doc =>
      docs (fst (createAppointment body s)) = docs s ++ [doc] /\
      status doc = pending /\
      forall a, In a (docs s) -> _id a <> _id doc
  | _ => docs (fst (createAppointment body s)) = docs s
  end.
Proof.
  destruct (wellFormed body) eqn:Hwf;
    [| now rewrite (createAppointment_invalid _ _ Hwf)].
  destruct (parseDate (value (req_date body))) as [d |] eqn:Hd;
    [| now rewrite (createAppointment_baddate _ _ Hwf Hd)].
  rewrite (createAppointment_valid _ _ d Hwf Hd). cbv zeta.
  destruct (filter (matches (admissionQuery (Some d) body)) (docs s));
    cbn [fst snd docs save called]; [| reflexivity].
  split; [reflexivity |]. split; [reflexivity |].
  intros a Ha. pose proof (newObjectId_fresh s a Ha) as Hlt.
  cbn [construct _id]. unfold newObjectId in *. cbn [called docs]. lia.
Qed.

Lemma filter_first {A} (f : A -> bool) (l : list A) (x : A) (rest : list A) :
  filter f l = x :: rest ->
  exists before after,
    l = before ++ x :: after /\ f x = true /\ forall b, In b before -> f b = false.
Proof.
  induction l as [| y l IH]; simpl; [discriminate |].
  destruct (f y) eqn:Hy.
  - intros H. injection H as <- _. exists [], l. repeat split; trivial. intros b [].
  - intros H. destruct (IH H) as [before [after [-> [Hx Hb]]]].
    exists (y :: before), after. repeat split; trivial.
    intros b [<- | Hin]; auto.
Qed.

Lemma taken_matches (d : Z) (body : Body) (a : Appointment) :
  matches (admissionQuery (Some d) body) a = true <-> taken d body a.
Proof. rewrite (matches_admission_true d body a). unfold taken. (forget; tauto). Qed.

(** X7.  For a request with string fields and an integer duration that
    passes the field test and whose date parses, [createAppointment]
    decides on start labels alone.  The labels the request needs are those
    of [getAffectedTimeSlots]: its start label, followed for a duration of
    60 by what [getNextTimeSlot] returns on it.  Either no active
    appointment of the day starts at one of them, and the answer is 201
    with the request stored as a pending document, its e-mail address as
    [toLowerCase] returns it; or one does, and the answer is 409 naming the
    start label of the first such appointment in store order, with the
    documents unchanged. *)
Theorem createAppointment_decision (body : Body) (s : Store) (d : Z) :
  wellFormed body = true ->
  parseDate (value (req_date body)) = Some d ->
  let s1 := called (Find (admissionQuery (Some d) body)) s in
  (startsFree d body s /\
   createAppointment body s
   = (save (construct (admissionFields (Some d) body) s1) s1,
      Created (construct (admissionFields (Some d) body) s1)))
  \/
  (exists before first after,
      docs s = before ++ first :: after /\
      taken d body first /\
      (forall b, In b before -> ~ taken d body b) /\
      createAppointment body s = (s1, Conflict (timeSlot first))).
Proof.
  intros Hwf Hd s1.
  rewrite (createAppointment_valid _ _ d Hwf Hd). cbv zeta. fold s1.
  destruct (filter (matches (admissionQuery (Some d) body)) (docs s))
    as [| first rest] eqn:Hf.
  - left. split; [| reflexivity].
    rewrite filter_empty in Hf. intros a Ha Hact Hdate Hin.
    specialize (Hf a Ha).
    assert (Hm : matches (admissionQuery (Some d) body) a = true)
      by (apply taken_matches; unfold taken; auto).
    congruence.
  - right. destruct (filter_first _ _ _ _ Hf) as [before [after [Hdocs [Hx Hb]]]].
    exists before, first, after. split; [exact Hdocs |].
    split; [now apply taken_matches |]. split; [| reflexivity].
    intros b Hin Htaken. apply taken_matches in Htaken.
    specialize (Hb b Hin). congruence.
Qed.

(** *** An offered slot can be booked *)

Lemma grid_next_by_time (i : nat) (slot next : string) :
  nth_error TimeSlots.generateAllTimeSlots i = Some slot ->
  nth_error TimeSlots.generateAllTimeSlots (S i) = Some next ->
  slot <> "12:00"%string ->
  getNextTimeSlot slot = next.
Proof.
  rewrite grid_value. intros Hi Hn Hne.
  do 26 (destruct i as [| i];
         [ simpl in Hi, Hn;
           first [ discriminate Hn
                 | injection Hi as <-; injection Hn as <-;
                   first [ reflexivity | exfalso; apply Hne; reflexivity ] ] | ]).
  simpl in Hi. destruct i; discriminate Hi.
Qed.

Lemma occupied_start (a : Appointment) : In (timeSlot a) (occupied a).
Proof. apply occupied_In. now left. Qed.

(** X8.  A slot that [getAvailableSlots] returns for a date can be booked
    on the store as it stands: a request for that date and slot that passes
    the field test is answered 201, for any duration other than 60, and for
    60 as well unless the slot is "12:00", the one whose next half hour is
    not the next label of the grid. *)
Theorem offered_slot_is_bookable
        (dateString slot : string) (s : Store) (d : Z) (body : Body) :
  dateString <> EmptyString ->
  parseDate dateString = Some d ->
  In slot (slotsOf (snd (getAvailableSlots dateString s))) ->
  wellFormed body = true ->
  req_date body = Some dateString ->
  req_timeSlot body = Some slot ->
  (durationOf body = 60 -> slot <> "12:00"%string) ->
  exists s' doc,
    createAppointment body (fst (getAvailableSlots dateString s)) = (s', Created doc) /\
    timeSlot doc = slot /\ duration doc = durationOf body /\ status doc = pending.
Proof.
  intros Hne Hd Hin Hwf Hdate Hslot Hsixty.
  destruct (getAvailableSlots_slots dateString s d Hne Hd)
    as [slots [Heq Hslots]].
  rewrite Heq in *. cbn [fst snd slotsOf] in *.
  apply Hslots in Hin as [i [next [Hi [Hnext [Hfree Hfree_next]]]]].
  pose proof (createAppointment_admits body
                (called (Find (dayQuery (Some d))) s) d Hwf) as Hcreate.
  cbv zeta in Hcreate. rewrite Hdate in Hcreate. cbn [value] in Hcreate.
  eexists. eexists. split.
  - apply Hcreate; [exact Hd |].
    intros a Ha Hact Ha_date Hreq. cbn [called docs] in Ha.
    unfold requiredLabels, getAffectedTimeSlots in Hreq.
    rewrite Hslot in Hreq. cbn [value] in Hreq.
    destruct (Z.eqb_spec (durationOf body) 60) as [H60 | Hn60].
    + apply in_app_or in Hreq as [[Hst | []] | [Hst | []]].
      * apply (Hfree a Ha Hact Ha_date). rewrite Hst. apply occupied_start.
      * rewrite (grid_next_by_time i slot next Hi Hnext (Hsixty H60)) in Hst.
        apply (Hfree_next a Ha Hact Ha_date). rewrite Hst. apply occupied_start.
    + destruct Hreq as [Hst | []].
      apply (Hfree a Ha Hact Ha_date). rewrite Hst. apply occupied_start.
  - cbn [construct admissionFields timeSlot duration status new_timeSlot
         new_duration new_status]. rewrite Hslot. auto.
Qed.

(** X9.  A booking takes its labels off the availability list: once
    [createAppointment] has answered 201 with a document, no label that the
    document occupies is among the slots [getAvailableSlots] returns for a
    date string that parses to the document's date. *)
Theorem booked_labels_not_offered
        (body : Body) (s s' : Store) (doc : Appointment) (dateString label : string) :
  createAppointment body s = (s', Created doc) ->
  parseDate dateString = date doc ->
  In label (occupied doc) ->
  ~ In label (slotsOf (snd (getAvailableSlots dateString s'))).
Proof.
  intros Hcreate Hdate Hocc Hin.
  pose proof (createAppointment_appends_at_most_one body s) as Hframe.
  rewrite Hcreate in Hframe. cbn [fst snd] in Hframe.
  destruct Hframe as [Hdocs [Hstatus _]].
  destruct (String.eqb_spec dateString EmptyString) as [-> | Hne];
    [exact Hin |].
  destruct (parseDate dateString) as [d |] eqn:Hd.
  - destruct (getAvailableSlots_slots dateString s' d Hne Hd)
      as [slots [Heq Hslots]].
    rewrite Heq in Hin. cbn [snd slotsOf] in Hin.
    apply Hslots in Hin as [i [next [_ [_ [Hfree _]]]]].
    apply (Hfree doc).
    + rewrite Hdocs. apply in_or_app. right. now left.
    + unfold isActive. now rewrite Hstatus.
    + now symmetry.
    + exact Hocc.
  - unfold Controller.getAvailableSlots in Hin.
    apply String.eqb_neq in Hne. rewrite Hne, Hd in Hin. exact Hin.
Qed.

(** *** getNextTimeSlot and getAffectedTimeSlots *)

Lemma getNextTimeSlot_checked :
  forallb (fun n => String.eqb (getNextTimeSlot (TimeSlots.label (Z.of_nat n)))
                               (TimeSlots.label ((Z.of_nat n + 30) mod 1440)))
          (seq 0 1440) = true.
Proof. vm_compute. reflexivity. Qed.

(** X10.  On the label of a minute of the day, [getNextTimeSlot] gives the
    label of the minute half an hour later, wrapping at midnight ("23:30"
    gives "00:00"); so a 60-minute booking affects its start label and that
    one. *)
Theorem getNextTimeSlot_half_hour_later (m : Z) :
  0 <= m < 1440 ->
  getNextTimeSlot (TimeSlots.label m) = TimeSlots.label ((m + 30) mod 1440) /\
  getAffectedTimeSlots (TimeSlots.label m) 60
  = [TimeSlots.label m; TimeSlots.label ((m + 30) mod 1440)].
Proof.
  intros Hm.
  assert (Hnext : getNextTimeSlot (TimeSlots.label m)
                  = TimeSlots.label ((m + 30) mod 1440)).
  { pose proof getNextTimeSlot_checked as Hall.
    rewrite forallb_forall in Hall.
    specialize (Hall (Z.to_nat m)).
    rewrite Z2Nat.id in Hall by lia.
    apply String.eqb_eq. apply Hall. apply in_seq. lia. }
  split; [exact Hnext |].
  unfold getAffectedTimeSlots. cbn [Z.eqb Pos.eqb app]. now rewrite Hnext.
Qed.

Lemma split_no_separator (sep : ascii) (s : string) :
  ~ In sep (list_ascii_of_string s) -> JS.split sep s = [s].
Proof.
  induction s as [| c s IH]; intros Hno; [reflexivity |]. simpl in *.
  destruct (Ascii.eqb_spec c sep) as [-> | Hne];
    [exfalso; apply Hno; now left |].
  rewrite IH; [reflexivity |]. intros H. apply Hno. now right.
Qed.

(** X11.  A start label without a colon has no minutes field: the date of
    [getNextTimeSlot] is invalid and the result is "NaN:NaN", whatever the
    label; a 60-minute request with such a start is checked against the
    start label and "NaN:NaN". *)
Theorem getNextTimeSlot_without_colon (startTime : string) :
  ~ In ":"%char (list_ascii_of_string startTime) ->
  getNextTimeSlot startTime = "NaN:NaN"%string /\
  getAffectedTimeSlots startTime 60 = [startTime; "NaN:NaN"%string].
Proof.
  intros Hno.
  assert (Hnext : getNextTimeSlot startTime = "NaN:NaN"%string).
  { unfold Controller.getNextTimeSlot. now rewrite (split_no_separator _ _ Hno). }
  split; [exact Hnext |].
  unfold getAffectedTimeSlots. cbn [Z.eqb Pos.eqb app]. now rewrite Hnext.
Qed.

(** *** The loop of the slot generator *)

(** X12.  From any starting minute, the loop of [generateAllTimeSlots]
    appends the labels of minutes that all lie from the start up to, not
    including, the end of the working day, none of them inside the lunch
    window, each at least one slot duration after the one before. *)
Theorem slots_loop_emits (fuel : nat) :
  forall (currentTimeMinutes : Z) (slots result : list string),
    TimeSlots.slots_loop fuel currentTimeMinutes slots = Some result ->
    exists minutes,
      result = slots ++ map TimeSlots.label minutes /\
      Forall (fun m => currentTimeMinutes <= m < TimeSlots.endMinutes /\
                       ~ (TimeSlots.LUNCH_START_MINUTES <= m
                          < TimeSlots.LUNCH_END_MINUTES)) minutes /\
      StronglySorted (fun a b => a + TimeSlots.SLOT_DURATION_MINUTES <= b) minutes.
Proof.
  assert (Hls : TimeSlots.LUNCH_START_MINUTES = 750) by reflexivity.
  assert (Hle : TimeSlots.LUNCH_END_MINUTES = 840) by reflexivity.
  assert (Hsd : TimeSlots.SLOT_DURATION_MINUTES = 30) by reflexivity.
  induction fuel as [| fuel IH]; intros cur slots result; simpl; [discriminate |].
  destruct (Z.ltb_spec cur TimeSlots.endMinutes) as [Hlt | Hge].
  - destruct ((TimeSlots.LUNCH_START_MINUTES <=? cur)
              && (cur <? TimeSlots.LUNCH_END_MINUTES)) eqn:Hlunch.
    + apply andb_true_iff in Hlunch as [H1 H2].
      apply Z.leb_le in H1. apply Z.ltb_lt in H2.
      intros Hrun. destruct (IH _ _ _ Hrun) as [minutes [Hres [Hall Hsorted]]].
      exists minutes. split; [exact Hres |]. split; [| exact Hsorted].
      eapply Forall_impl; [| exact Hall]. cbv beta. intros m [Hm Hout]. split; [lia | exact Hout].
    + intros Hrun. destruct (IH _ _ _ Hrun) as [minutes [Hres [Hall Hsorted]]].
      exists (cur :: minutes). split; [| split].
      * rewrite Hres, <- app_assoc. reflexivity.
      * constructor.
        -- split; [lia |]. intros [H1 H2].
           apply Z.leb_le in H1. apply Z.ltb_lt in H2.
           rewrite H1, H2 in Hlunch. discriminate.
        -- eapply Forall_impl; [| exact Hall]. cbv beta.
           intros m [Hm Hout]. split; [lia | exact Hout].
      * constructor; [exact Hsorted |].
        eapply Forall_impl; [| exact Hall]. cbv beta. intros m [Hm _]. lia.
  - intros H. injection H as <-. exists []. simpl. rewrite app_nil_r.
    repeat split; constructor.
Qed.

(** *** The earlier handlers *)

Lemma Set_add_fold_In (l acc : list string) (x : string) :
  In x (fold_left JS.Set_add l acc) <-> In x acc \/ In x l.
Proof.
  revert acc. induction l as [| y l IH]; intros acc; simpl.
  - split; [now left | intros [H | []]; exact H].
  - rewrite IH, Set_add_In. split.
    + intros [[H | ->] | H]; [now left | right; now left | right; now right].
    + intros [H | [<- | H]]; [left; now left | left; now right | now right].
Qed.

Lemma legacy_getAvailableSlots_valid (dateString : string) (s : Store) (d : Z) :
  dateString <> EmptyString ->
  parseDate dateString = Some d ->
  legacyGetAvailableSlots dateString s =
  (called (Find (dayQuery (Some d))) s,
   Legacy.Slots dateString
     (filter (fun slot =>
                negb (JS.Set_has
                        (fold_left JS.Set_add
                           (map timeSlot (filter (matches (dayQuery (Some d))) (docs s)))
                           [])
                        slot))
             Legacy.generateAllTimeSlots)).
Proof.
  intros Hne Hd. unfold Legacy.getAvailableSlots.
  apply String.eqb_neq in Hne. rewrite Hne, Hd. reflexivity.
Qed.

Lemma legacy_createAppointment_valid (body : Body) (s : Store) (d : Z) :
  legacyWellFormed body = true ->
  parseDate (value (req_date body)) = Some d ->
  legacyCreateAppointment body s =
  let s1 := called (Find (legacyQuery (Some d) body)) s in
  match filter (matches (legacyQuery (Some d) body)) (docs s) with
  | [] => let newAppointment := construct (admissionFields (Some d) body) s1 in
          (save newAppointment s1, Legacy.Created newAppointment)
  | _ :: _ => (s1, Legacy.Conflict)
  end.
Proof.
  unfold legacyWellFormed, Legacy.createAppointment. intros Hwf Hd.
  apply negb_true_iff in Hwf. rewrite Hwf, Hd.
  unfold find. cbn [where_date]. unfold legacyQuery.
  destruct (filter _ (docs s)); reflexivity.
Qed.

Lemma matches_legacy_true (d : Z) (body : Body) (a : Appointment) :
  matches (legacyQuery (Some d) body) a = true <->
  date a = Some d /\ timeSlot a = value (req_timeSlot body) /\ isActive a = true.
Proof.
  unfold matches, legacyQuery. cbn [where_date where_timeSlot_in where_status_in existsb].
  rewrite !andb_true_iff, orb_false_r, Date_eqb_eq, String.eqb_eq.
  unfold isActive. (forget; tauto).
Qed.

(** X13.  The earlier handlers agree with each other: for a date that
    parses, a slot is among those the earlier [getAvailableSlots] returns
    exactly when it is a label of the earlier grid and a request for that
    date and slot that passes the field test is answered 201 by the earlier
    [createAppointment], whatever its duration. *)
Theorem legacy_offered_iff_admitted
        (dateString slot : string) (s : Store) (d : Z) (body : Body) :
  dateString <> EmptyString ->
  parseDate dateString = Some d ->
  legacyWellFormed body = true ->
  req_date body = Some dateString ->
  req_timeSlot body = Some slot ->
  (In slot (legacySlotsOf (snd (legacyGetAvailableSlots dateString s))) <->
   In slot Legacy.generateAllTimeSlots /\
   exists s' doc, legacyCreateAppointment body s = (s', Legacy.Created doc)).
Proof.
  intros Hne Hd Hwf Hdate Hslot.
  rewrite (legacy_getAvailableSlots_valid _ _ d Hne Hd). cbn [snd legacySlotsOf].
  assert (Hparse : parseDate (value (req_date body)) = Some d)
    by (rewrite Hdate; exact Hd).
  rewrite (legacy_createAppointment_valid _ _ d Hwf Hparse). cbv zeta.
  rewrite filter_In, negb_true_iff, Set_has_false, Set_add_fold_In, in_map_iff.
  assert (Hstart : value (req_timeSlot body) = slot) by (now rewrite Hslot).
  split.
  - intros [Hgrid Hfree]. split; [exact Hgrid |].
    destruct (filter (matches (legacyQuery (Some d) body)) (docs s))
      as [| first rest] eqn:Hf; [eexists; eexists; reflexivity |].
    exfalso. apply Hfree. right.
    assert (Hin : In first (filter (matches (legacyQuery (Some d) body)) (docs s)))
      by (rewrite Hf; now left).
    apply filter_In in Hin as [Hin Hm].
    apply matches_legacy_true in Hm as [Hfd [Hfs Hfa]].
    exists first. split; [congruence |].
    apply filter_In. split; [exact Hin |]. apply matches_day_true. now split.
  - intros [Hgrid [s' [doc Hcreate]]]. split; [exact Hgrid |].
    intros [[] | [a [Ha Hin]]].
    apply filter_In in Hin as [Hin Hm]. apply matches_day_true in Hm as [Had Haa].
    destruct (filter (matches (legacyQuery (Some d) body)) (docs s))
      as [| first rest] eqn:Hf; [| discriminate Hcreate].
    rewrite filter_empty in Hf. specialize (Hf a Hin).
    assert (Hm : matches (legacyQuery (Some d) body) a = true)
      by (apply matches_legacy_true; repeat split; congruence).
    congruence.
Qed.

Lemma halfHours_step (start stop : Z) :
  start < stop -> halfHours start stop = start :: halfHours (start + 30) stop.
Proof.
  intros Hlt. unfold halfHours.
  replace (stop - start + 29) with (stop - (start + 30) + 29 + 1 * 30) by lia.
  rewrite Z.div_add by lia.
  assert (Hnn : 0 <= (stop - (start + 30) + 29) / 30)
    by (apply Z.div_pos; lia).
  rewrite Z2Nat.inj_add by lia.
  replace (Z.to_nat 1) with 1%nat by reflexivity.
  rewrite Nat.add_comm. cbn [Nat.add seq map].
  f_equal; [simpl; lia |].
  rewrite <- seq_shift, map_map. apply map_ext. intros k. lia.
Qed.

Lemma halfHours_done (start stop : Z) : stop <= start -> halfHours start stop = [].
Proof.
  intros Hge. unfold halfHours.
  assert (H : (stop - start + 29) / 30 <= 0).
  { apply Z.lt_succ_r. apply Z.div_lt_upper_bound; lia. }
  replace (Z.to_nat ((stop - start + 29) / 30)) with 0%nat by lia. reflexivity.
Qed.

Lemma legacy_loop_runs (n : nat) :
  forall (currentTime endTime : Z) (slots : list string) (fuel : nat),
    (Z.to_nat (endTime - currentTime) <= n)%nat -> (n < fuel)%nat ->
    Legacy.slots_loop fuel currentTime endTime slots
    = Some (slots ++ map Legacy.label (halfHours currentTime endTime)).
Proof.
  induction n as [| n IH]; intros cur stop slots fuel Hn Hfuel;
    (destruct fuel as [| fuel]; [lia |]); simpl;
    destruct (Z.ltb_spec cur stop) as [Hlt | Hge];
    try (rewrite halfHours_done by lia; now rewrite app_nil_r); try lia.
  unfold Legacy.SLOT_DURATION_MINUTES.
  rewrite IH by lia. rewrite (halfHours_step cur stop Hlt).
  now rewrite <- app_assoc.
Qed.

(** X14.  The loop of the earlier generator returns, for every start and
    end of the working day, the labels of the half hours from the start up
    to, not including, the end, appended to what it was given: one label
    for every 30 minutes, rounded up. *)
Theorem legacy_slots_loop_half_hours (currentTime endTime : Z) (slots : list string) :
  Legacy.slots_loop (S (Z.to_nat (endTime - currentTime))) currentTime endTime slots
  = Some (slots ++ map Legacy.label (halfHours currentTime endTime)) /\
  List.length (halfHours currentTime endTime)
  = Z.to_nat ((endTime - currentTime + 29) / 30).
Proof.
  split.
  - apply (legacy_loop_runs (Z.to_nat (endTime - currentTime))); lia.
  - unfold halfHours. now rewrite length_map, length_seq.
Qed.

End Properties.

Arguments booking id%_nat d%_Z timeSlot%_string duration%_Z status.

(** ** The claims at concrete inputs

    The handlers are run with [january] as the date parser and the
    24-digit hexadecimal cast of identifiers. *)

Ltac not_in_list H :=
  repeat (destruct H as [H | H]; [discriminate H |]); exact H.

Ltac no_duplicates :=
  repeat (apply NoDup_cons;
          [ let H := fresh "H" in simpl; intros H; not_in_list H | ]);
  apply NoDup_nil.

(** C1 on 15 January 2025. *)
Lemma C1_overlap_admitted_witness :
  ~ noDoubleBooking notConsulted
      (Controller.applyAll notConsulted notConsulted january hex24 hexCast
         [Create (request day "09:00" 60); Create (request day "09:30" 30)] empty).
Proof.
  apply (C1_overlap_admitted notConsulted notConsulted january hex24 hexCast day midnight);
    [discriminate | reflexivity].
Defined.

(** C2 on the store left by a 60-minute booking at 09:00: the request for
    09:30 is created. *)
Lemma C2_second_label_not_matched_witness :
  exists s' doc,
    Controller.createAppointment notConsulted notConsulted january (request day "09:30" 30)
      (Controller.applyAll notConsulted notConsulted january hex24 hexCast
         [Create (request day "09:00" 60)] empty)
    = (s', Created doc) /\
    clash notConsulted (booking 1 midnight "09:00" 60 pending) doc.
Proof.
  destruct (C2_second_label_not_matched notConsulted notConsulted january (request day "09:30" 30)
              (Controller.applyAll notConsulted notConsulted january hex24 hexCast
                 [Create (request day "09:00" 60)] empty)
              midnight (booking 1 midnight "09:00" 60 pending))
    as [s' [doc [Hcreate [_ [_ [_ Hclash]]]]]].
  - reflexivity.
  - reflexivity.
  - vm_compute. left. reflexivity.
  - reflexivity.
  - reflexivity.
  - reflexivity.
  - vm_compute. left. reflexivity.
  - intros a Ha _ _ H. vm_compute in Ha. destruct Ha as [<- | []].
    vm_compute in H. not_in_list H.
  - exists s', doc. split; assumption.
Defined.

(** When a conflict is reported, the label named is the start of the first
    match in store order, which need not be the first required label. *)
Lemma conflict_named_in_store_order :
  let s := Controller.applyAll notConsulted notConsulted january hex24 hexCast
             [Create (request day "09:30" 30); Create (request day "09:00" 30)] empty in
  requiredLabels notConsulted (request day "09:00" 60) = ["09:00"; "09:30"]%string /\
  snd (Controller.createAppointment notConsulted notConsulted january (request day "09:00" 60) s)
  = Conflict "09:30".
Proof. vm_compute. split; reflexivity. Qed.

(** One winner under any interleaving does not hold of the handler: two
    identical requests whose queries both run before either save are both
    created. *)
Lemma interleaved_two_winners :
  ~ oneWinnerUnderConcurrency notConsulted notConsulted january.
Proof.
  intros H.
  specialize (H [request day "09:00" 60; request day "09:00" 60] midnight
                [0; 1; 0; 1]%nat
                (fst (Controller.run notConsulted notConsulted january [0; 1; 0; 1]%nat
                        (map Arrived [request day "09:00" 60; request day "09:00" 60])
                        empty))
                [Created (booking 1 midnight "09:00" 60 pending);
                 Created (booking 2 midnight "09:00" 60 pending)]).
  destruct H as [H _].
  - simpl. lia.
  - intros body [<- | [<- | []]]; split; reflexivity.
  - intros b1 b2 [<- | [<- | []]] [<- | [<- | []]];
      exists "09:00"%string; split; vm_compute; left; reflexivity.
  - vm_compute. reflexivity.
  - vm_compute in H. discriminate H.
Qed.

(** C3 on the empty store: two requests for 09:00, 60 minutes, in flight
    together. *)
Lemma C3_race_both_created_witness :
  exists s' first second,
    Controller.run notConsulted notConsulted january [0; 1; 0; 1]%nat
      [Arrived (request day "09:00" 60); Arrived (request day "09:00" 60)] empty
    = (s', [Replied (Created first); Replied (Created second)]) /\
    docs s' = docs empty ++ [first; second] /\
    status first = pending /\ status second = pending /\
    clash notConsulted first second.
Proof.
  apply (C3_race_both_created notConsulted notConsulted january
           (request day "09:00" 60) empty midnight).
  - reflexivity.
  - reflexivity.
  - intros a Ha. destruct Ha.
Defined.

(** Handled one at a time, three requests that all need "09:00" have one
    winner. *)
Lemma sequential_one_winner_at_nine :
  exists s' winner losers,
    Controller.createAll notConsulted notConsulted january
      [request day "09:00" 60; request day "09:00" 30; request day "08:30" 60] empty
    = (s', Created winner :: losers) /\
    docs s' = docs empty ++ [winner] /\ status winner = pending /\
    List.length losers = 2%nat /\
    Forall (fun r => isConflict r = true) losers.
Proof.
  apply (sequential_one_winner notConsulted notConsulted january (request day "09:00" 60)
           [request day "09:00" 30; request day "08:30" 60] empty midnight).
  - reflexivity.
  - reflexivity.
  - intros a Ha. destruct Ha.
  - intros body [<- | [<- | []]]; repeat split; vm_compute; tauto.
Defined.

(** C4 on the empty store. *)
Lemma C4_start_before_lunch_offered_witness :
  exists s' slots,
    Controller.getAvailableSlots notConsulted january day empty = (s', Slots day slots) /\
    In "12:00"%string slots /\
    getAffectedTimeSlots notConsulted "12:00" 60 = ["12:00"; "12:30"]%string /\
    ~ In "12:30"%string TimeSlots.generateAllTimeSlots.
Proof.
  apply (C4_start_before_lunch_offered notConsulted january day empty midnight).
  - discriminate.
  - reflexivity.
  - intros a Ha. destruct Ha.
  - intros a Ha. destruct Ha.
Defined.

(** C5 on the empty store. *)
Lemma C5_last_label_admitted_witness :
  exists s' doc,
    Controller.createAppointment notConsulted notConsulted january (request day "20:00" 60) empty
    = (s', Created doc) /\
    doc = booking 1 midnight "20:00" 60 pending /\
    docs s' = [doc] /\
    calls s' = [Find (admissionQuery notConsulted (Some midnight) (request day "20:00" 60));
                Save doc].
Proof.
  apply (C5_last_label_admitted notConsulted notConsulted january day empty midnight).
  - discriminate.
  - reflexivity.
  - intros a Ha. destruct Ha.
Defined.

(** Whatever the runtime does with strings outside the clock form and
    outside ASCII, a duration of 45 passes the validation. *)
Lemma duration_45_admitted (nextTimeSlotElsewhere toLowerCaseElsewhere : string -> string) :
  ~ gridValidation nextTimeSlotElsewhere toLowerCaseElsewhere january.
Proof.
  intros H. specialize (H (request day "09:00" 45) empty).
  assert (Hpremise : ~ (0 < durationOf (request day "09:00" 45) /\
                        durationOf (request day "09:00" 45) mod 30 = 0)).
  { intros [_ Hmod]. vm_compute in Hmod. discriminate Hmod. }
  specialize (H (or_introl Hpremise)). vm_compute in H. discriminate H.
Qed.

(** C7 as stated fails: a duration of 45 passes the validation. *)
Lemma C7_duration_45_admitted : ~ gridValidation notConsulted notConsulted january.
Proof. exact (duration_45_admitted notConsulted notConsulted). Qed.

(** A start label outside the grid passes the validation as well. *)
Lemma offgrid_start_admitted :
  ~ In "09:15"%string TimeSlots.generateAllTimeSlots /\
  exists s' doc,
    Controller.createAppointment notConsulted notConsulted january (request day "09:15" 30) empty
    = (s', Created doc).
Proof.
  split.
  - rewrite grid_value. simpl. intros H. not_in_list H.
  - eexists. eexists. vm_compute. reflexivity.
Qed.

(** C7 as amended, on a duration of 20. *)
Lemma C7_validation_witness :
  Controller.createAppointment notConsulted notConsulted january (request day "09:00" 20) empty
  = (empty, BadRequest).
Proof.
  apply (C7_validation notConsulted notConsulted january (request day "09:00" 20) empty).
  left. vm_compute. reflexivity.
Defined.

(** Whatever the runtime does with strings outside the clock form: with a
    booking at 10:00, cancelling the 60-minute booking at 09:00 does not
    bring "09:30" back. *)
Lemma successor_still_booked (nextTimeSlotElsewhere : string -> string) :
  ~ cancelFreesEveryLabel nextTimeSlotElsewhere january hex24 hexCast.
Proof.
  intros H.
  pose (s := Controller.applyAll nextTimeSlotElsewhere notConsulted january hex24 hexCast
               [Create (request day "09:00" 60); Create (request day "10:00" 30)] empty).
  pose (cancelled := Controller.cancelAppointment hex24 hexCast id1 s).
  pose (queried := Controller.getAvailableSlots nextTimeSlotElsewhere january day (fst cancelled)).
  specialize (H id1 day s (fst cancelled) (fst queried)
                (booking 1 midnight "09:00" 60 pending) midnight
                (snd cancelled) (slotsOf (snd queried)) "09:30"%string).
  assert (Hin : In "09:30"%string (slotsOf (snd queried))).
  { apply H.
    - reflexivity.
    - vm_compute. no_duplicates.
    - vm_compute. left. reflexivity.
    - reflexivity.
    - reflexivity.
    - reflexivity.
    - reflexivity.
    - vm_compute. reflexivity.
    - vm_compute. reflexivity.
    - vm_compute. right. left. reflexivity.
    - intros b Hb Hid _ _ Hocc. vm_compute in Hb.
      destruct Hb as [<- | [<- | []]].
      + apply Hid. reflexivity.
      + vm_compute in Hocc. not_in_list Hocc. }
  vm_compute in Hin. not_in_list Hin.
Qed.

(** C8 as stated fails: with a booking at 10:00, cancelling the 60-minute
    booking at 09:00 does not bring "09:30" back. *)
Lemma C8_successor_still_booked :
  ~ cancelFreesEveryLabel notConsulted january hex24 hexCast.
Proof. exact (successor_still_booked notConsulted). Qed.

(** C8 as amended, on scenario E: both labels come back. *)
Lemma C8_cancel_frees_labels_witness :
  exists s1 s2 slots,
    Controller.cancelAppointment hex24 hexCast id1
      (Controller.applyAll notConsulted notConsulted january hex24 hexCast
         [Create (request day "09:00" 60)] empty)
    = (s1, Updated (booking 1 midnight "09:00" 60 cancelled)) /\
    Controller.getAvailableSlots notConsulted january day s1 = (s2, Slots day slots) /\
    In "09:00"%string slots /\ In "09:30"%string slots.
Proof.
  destruct (C8_cancel_frees_labels notConsulted january hex24 hexCast id1 day
              (Controller.applyAll notConsulted notConsulted january hex24 hexCast
                 [Create (request day "09:00" 60)] empty)
              (booking 1 midnight "09:00" 60 pending) midnight)
    as [s1 [s2 [slots [Hcancel [Hquery Hfreed]]]]].
  - reflexivity.
  - vm_compute. no_duplicates.
  - vm_compute. left. reflexivity.
  - reflexivity.
  - reflexivity.
  - discriminate.
  - reflexivity.
  - exists s1, s2, slots. split; [exact Hcancel |]. split; [exact Hquery |].
    assert (Hothers : forall label next b,
               In b (docs (Controller.applyAll notConsulted notConsulted january hex24 hexCast
                             [Create (request day "09:00" 60)] empty)) ->
               _id b <> _id (booking 1 midnight "09:00" 60 pending) ->
               isActive b = true -> date b = Some midnight ->
               ~ In label (occupied notConsulted b) /\ ~ In next (occupied notConsulted b)).
    { intros label next b Hb Hid. vm_compute in Hb. destruct Hb as [<- | []].
      exfalso. apply Hid. reflexivity. }
    split.
    + apply (Hfreed "09:00"%string 6%nat "09:30"%string);
        [vm_compute; tauto | reflexivity | reflexivity | apply Hothers].
    + apply (Hfreed "09:30"%string 7%nat "10:00"%string);
        [vm_compute; tauto | reflexivity | reflexivity | apply Hothers].
Defined.

(** C9 on a reachable store: A is created and cancelled, B is admitted on
    the same slot, then A is confirmed. *)
Lemma C9_confirm_unconditional_witness :
  exists s1,
    Controller.confirmAppointment hex24 hexCast id1
      (Controller.applyAll notConsulted notConsulted january hex24 hexCast
         [Create (request day "09:00" 30); Cancel id1; Create (request day "09:00" 30)]
         empty)
    = (s1, Updated (booking 1 midnight "09:00" 30 confirmed)) /\
    clash notConsulted (booking 1 midnight "09:00" 30 confirmed)
          (booking 2 midnight "09:00" 30 pending) /\
    ~ noDoubleBooking notConsulted s1.
Proof.
  destruct (C9_confirm_unconditional notConsulted hex24 hexCast id1
              (Controller.applyAll notConsulted notConsulted january hex24 hexCast
                 [Create (request day "09:00" 30); Cancel id1;
                  Create (request day "09:00" 30)] empty)
              (booking 1 midnight "09:00" 30 cancelled))
    as [s1 [Hconfirm [_ [_ [_ Hclash]]]]].
  - reflexivity.
  - vm_compute. no_duplicates.
  - vm_compute. left. reflexivity.
  - reflexivity.
  - exists s1. split; [exact Hconfirm |].
    apply (Hclash (booking 2 midnight "09:00" 30 pending) "09:00"%string).
    + reflexivity.
    + vm_compute. right. left. reflexivity.
    + discriminate.
    + reflexivity.
    + reflexivity.
    + vm_compute. left. reflexivity.
    + vm_compute. left. reflexivity.
Defined.

(** C10 on the store of scenario C: "08:30" is not offered because "09:00"
    is booked, nor is the last label. *)
Lemma C10_two_slot_rules_witness :
  let s := Controller.applyAll notConsulted notConsulted january hex24 hexCast
             [Create (request day "09:00" 60)] empty in
  let slots := slotsOf (snd (Controller.getAvailableSlots notConsulted january day s)) in
  ~ In "20:00"%string slots /\ ~ In "08:30"%string slots /\ In "08:00"%string slots.
Proof.
  intros s slots.
  destruct (C10_two_slot_rules notConsulted january day s
              (fst (Controller.getAvailableSlots notConsulted january day s)) day slots)
    as [Hlast [d [Hd Hnext]]].
  - vm_compute. reflexivity.
  - split; [exact Hlast |]. split.
    + intros Hin. destruct (Hnext "08:30"%string 5%nat Hin eq_refl)
        as [next [Hn [Hfree _]]].
      injection Hn as <-. injection Hd as <-.
      apply (Hfree (booking 1 midnight "09:00" 60 pending)).
      * vm_compute. left. reflexivity.
      * reflexivity.
      * reflexivity.
      * vm_compute. left. reflexivity.
    + vm_compute. tauto.
Defined.


(** ** The rest of the handlers at concrete inputs *)

(** X2 on the store left by one booking: the identifier 2 is not there. *)
Lemma statusUpdate_not_found_witness :
  let s := Controller.applyAll notConsulted notConsulted january hex24 hexCast
             [Create (request day "09:00" 60)] empty in
  snd (Controller.cancelAppointment hex24 hexCast id2 s) = NotFound /\
  docs (fst (Controller.cancelAppointment hex24 hexCast id2 s)) = docs s.
Proof.
  intros s.
  destruct (statusUpdate_not_found hex24 hexCast id2 s eq_refl) as [Hc [_ [Hd _]]].
  assert (H : snd (Controller.cancelAppointment hex24 hexCast id2 s) = NotFound).
  { apply Hc. intros a Ha. vm_compute in Ha. destruct Ha as [<- | []].
    vm_compute. discriminate. }
  split; [exact H | exact (Hd H)].
Defined.

(** X7 on a store with bookings at 09:30 and 09:00, in that order: a
    60-minute request at 09:00 is refused, naming "09:30". *)
Lemma createAppointment_decision_witness :
  let s := Controller.applyAll notConsulted notConsulted january hex24 hexCast
             [Create (request day "09:30" 30); Create (request day "09:00" 30)] empty in
  exists before first after,
    docs s = before ++ first :: after /\
    taken notConsulted midnight (request day "09:00" 60) first /\
    (forall b, In b before -> ~ taken notConsulted midnight (request day "09:00" 60) b) /\
    Controller.createAppointment notConsulted notConsulted january (request day "09:00" 60) s
    = (called (Find (admissionQuery notConsulted (Some midnight) (request day "09:00" 60))) s,
       Conflict (timeSlot first)).
Proof.
  intros s.
  destruct (createAppointment_decision notConsulted notConsulted january
              (request day "09:00" 60) s midnight
              eq_refl eq_refl) as [[Hfree _] | Hconflict].
  - exfalso. apply (Hfree (booking 1 midnight "09:30" 30 pending)).
    + vm_compute. left. reflexivity.
    + reflexivity.
    + reflexivity.
    + vm_compute. right. left. reflexivity.
  - exact Hconflict.
Defined.

(** X8 on the empty store: "09:00" is offered and a 60-minute request for
    it is created. *)
Lemma offered_slot_is_bookable_witness :
  exists s' doc,
    Controller.createAppointment notConsulted notConsulted january (request day "09:00" 60)
      (fst (Controller.getAvailableSlots notConsulted january day empty))
    = (s', Created doc) /\
    timeSlot doc = "09:00"%string /\ duration doc = 60 /\ status doc = pending.
Proof.
  apply (offered_slot_is_bookable notConsulted notConsulted january day "09:00" empty midnight
           (request day "09:00" 60)).
  - discriminate.
  - reflexivity.
  - vm_compute. tauto.
  - reflexivity.
  - reflexivity.
  - reflexivity.
  - intros _. discriminate.
Defined.

(** X10 at 23:30, the last half hour of the day. *)
Lemma getNextTimeSlot_half_hour_later_witness :
  getNextTimeSlot notConsulted (TimeSlots.label 1410) = TimeSlots.label ((1410 + 30) mod 1440) /\
  getAffectedTimeSlots notConsulted (TimeSlots.label 1410) 60
  = [TimeSlots.label 1410; TimeSlots.label ((1410 + 30) mod 1440)].
Proof. apply (getNextTimeSlot_half_hour_later notConsulted 1410). lia. Defined.

(** X11 on "0900". *)
Lemma getNextTimeSlot_without_colon_witness :
  getNextTimeSlot notConsulted "0900"%string = "NaN:NaN"%string /\
  getAffectedTimeSlots notConsulted "0900"%string 60 = ["0900"; "NaN:NaN"]%string.
Proof.
  apply (getNextTimeSlot_without_colon notConsulted "0900"%string).
  simpl. intros H. not_in_list H.
Defined.

(** X12 on the run that produces the grid. *)
Lemma slots_loop_emits_witness :
  exists minutes,
    TimeSlots.generateAllTimeSlots = [] ++ map TimeSlots.label minutes /\
    Forall (fun m => TimeSlots.START_HOUR * 60 <= m < TimeSlots.endMinutes /\
                     ~ (TimeSlots.LUNCH_START_MINUTES <= m
                        < TimeSlots.LUNCH_END_MINUTES)) minutes /\
    StronglySorted (fun a b => a + TimeSlots.SLOT_DURATION_MINUTES <= b) minutes.
Proof.
  apply (slots_loop_emits (TimeSlots.enough_fuel (TimeSlots.START_HOUR * 60))
           (TimeSlots.START_HOUR * 60) [] TimeSlots.generateAllTimeSlots).
  exact generateAllTimeSlots_returns.
Defined.

(** X13 on the empty store and "09:00". *)
Lemma legacy_offered_iff_admitted_witness :
  In "09:00"%string
     (legacySlotsOf (snd (Legacy.getAvailableSlots january day empty))) <->
  In "09:00"%string Legacy.generateAllTimeSlots /\
  exists s' doc,
    Legacy.createAppointment notConsulted january (request day "09:00" 60) empty
    = (s', Legacy.Created doc).
Proof.
  apply (legacy_offered_iff_admitted notConsulted january day "09:00" empty midnight
           (request day "09:00" 60)).
  - discriminate.
  - reflexivity.
  - reflexivity.
  - reflexivity.
  - reflexivity.
Defined.

(** X9 on scenario C: after a 60-minute booking at 09:00, "09:30" is not
    offered. *)
Lemma booked_labels_not_offered_witness :
  ~ In "09:30"%string
       (slotsOf (snd (Controller.getAvailableSlots notConsulted january day
                        (fst (Controller.createAppointment notConsulted notConsulted january
                                (request day "09:00" 60) empty))))).
Proof.
  apply (booked_labels_not_offered notConsulted notConsulted january (request day "09:00" 60) empty
           (fst (Controller.createAppointment notConsulted notConsulted january
                   (request day "09:00" 60) empty))
           (booking 1 midnight "09:00" 60 pending) day "09:30").
  - vm_compute. reflexivity.
  - reflexivity.
  - vm_compute. right. left. reflexivity.
Defined.
